(** * Meta_Probability: a finite discrete random variable and its sampler

    A shallow embedding of [Meta_Probability.py]: the validating descriptors
    ([Descriptor_], [TypeChecked], [List], [_Integers], [_Probabilities] and
    their combinations through the method resolution order), the class
    [RandomGen] with its subclass [RV], the two histogram builders
    [generator_] (eager loop) and [generator] (driven by the Python
    generator [generator_next]), and the [debug] decorator.

    Python floats are IEEE-754 binary64 numbers: they are modelled by Rocq's
    primitive floats, which are the same numbers with the same rounding.
    Python ints are unbounded: they are modelled by [Z]. *)

From Stdlib Require Import ZArith List String Ascii Bool Lia.
From Stdlib Require Import PrimFloat SpecFloat FloatOps DecimalString.
From Stdlib Require Import DecimalPos DecimalZ.
Import ListNotations.

Set Warnings "-inexact-float,-register-all".

Local Open Scope Z_scope.

(** ** Python values and exceptions *)

(** The values the program can be handed: [None], booleans, integers, floats,
    strings and lists of values. *)
Inductive pyval : Type :=
| VNone
| VBool (b : bool)
| VInt (z : Z)
| VFloat (f : float)
| VStr (s : string)
| VList (l : list pyval).

(** The exceptions the modelled code can raise.  [Diverged] is not a Python
    exception: it marks a loop of the model that ran out of fuel, and
    [for_gen_fuel_enough] shows the fuel the model supplies is sufficient. *)
Inductive exn : Type :=
| TypeError (msg : string)
| ValueError (msg : string)
| KeyError (key : string)
| AttributeError (msg : string)
| OverflowError (msg : string)
| UnboundLocalError (var : string)
| Diverged.

Inductive result (A : Type) : Type :=
| Ok (a : A)
| Err (e : exn).
Arguments Ok {A} a.
Arguments Err {A} e.

Definition rbind {A B} (r : result A) (f : A -> result B) : result B :=
  match r with
  | Ok a => f a
  | Err e => Err e
  end.

(** The error kinds of the specification, as the source raises them. *)
Definition TypeMismatch (e : exn) : Prop := exists msg, e = TypeError msg.
Definition ShapeMismatch (e : exn) : Prop :=
  e = ValueError "Expecting to map each element to a probability.".
Definition ProbabilityError (e : exn) : Prop :=
  e = ValueError "Must be within Epsilon of 1.0.".

(** ** Built-in operations on values *)

Definition dquote : string := String (ascii_of_nat 34) EmptyString.

(** [type(v).__name__] *)
Definition type_name (v : pyval) : string :=
  match v with
  | VNone => "NoneType"
  | VBool _ => "bool"
  | VInt _ => "int"
  | VFloat _ => "float"
  | VStr _ => "str"
  | VList _ => "list"
  end.

(** The types the descriptors test against. *)
Inductive pytype : Type := Tobject | Tlist | Tint.

Definition isinstance (v : pyval) (t : pytype) : bool :=
  match t, v with
  | Tobject, _ => true
  | Tlist, VList _ => true
  | Tint, VInt _ => true
  | Tint, VBool _ => true          (* bool is a subclass of int *)
  | _, _ => false
  end.

(** [repr] of a type object, as an f-string prints it. *)
Definition type_repr (t : pytype) : string :=
  match t with
  | Tobject => "<class 'object'>"
  | Tlist => "<class 'list'>"
  | Tint => "<class 'int'>"
  end.

(** Numbers: an int (a bool counts as the int 0 or 1) or a float. *)
Inductive num : Type := NInt (z : Z) | NFloat (f : float).

Definition to_num (v : pyval) : option num :=
  match v with
  | VBool b => Some (NInt (if b then 1 else 0))
  | VInt z => Some (NInt z)
  | VFloat f => Some (NFloat f)
  | _ => None
  end.

Definition is_numeric (v : pyval) : bool :=
  match to_num v with Some _ => true | None => false end.

(** int -> float: correctly rounded (to nearest, ties to even); an int too
    large for a finite double raises [OverflowError]. *)
Definition float_of_int (z : Z) : result float :=
  let f := SF2Prim (binary_normalize prec emax z 0 false) in
  if is_infinity f
  then Err (OverflowError "int too large to convert to float")
  else Ok f.

Definition as_float (n : num) : result float :=
  match n with
  | NInt z => float_of_int z
  | NFloat f => Ok f
  end.

Definition unsupported_msg (op : string) (a b : pyval) : string :=
  ("unsupported operand type(s) for " ++ op ++ ": '"
   ++ type_name a ++ "' and '" ++ type_name b ++ "'")%string.

Definition unsupported (op : string) (a b : pyval) : exn :=
  TypeError (unsupported_msg op a b).

Definition cannot_concat (a b : pyval) : exn :=
  TypeError ("can only concatenate " ++ type_name a ++ " (not " ++ dquote
             ++ type_name b ++ dquote ++ ") to " ++ type_name a)%string.

(** [a + b] *)
Definition py_add (a b : pyval) : result pyval :=
  match to_num a, to_num b with
  | Some (NInt x), Some (NInt y) => Ok (VInt (x + y))
  | Some x, Some y =>
      rbind (as_float x) (fun fx =>
      rbind (as_float y) (fun fy => Ok (VFloat (fx + fy)%float)))
  | _, _ =>
      match a, b with
      | VStr s, VStr t => Ok (VStr (s ++ t)%string)
      | VList l, VList m => Ok (VList (l ++ m)%list)
      | VStr _, _ | VList _, _ => Err (cannot_concat a b)
      | _, _ => Err (unsupported "+" a b)
      end
  end.

(** [a - b] *)
Definition py_sub (a b : pyval) : result pyval :=
  match to_num a, to_num b with
  | Some (NInt x), Some (NInt y) => Ok (VInt (x - y))
  | Some x, Some y =>
      rbind (as_float x) (fun fx =>
      rbind (as_float y) (fun fy => Ok (VFloat (fx - fy)%float)))
  | _, _ => Err (unsupported "-" a b)
  end.

(** [abs(a)] *)
Definition py_abs (a : pyval) : result pyval :=
  match to_num a with
  | Some (NInt x) => Ok (VInt (Z.abs x))
  | Some (NFloat f) => Ok (VFloat (abs f))
  | None => Err (TypeError ("bad operand type for abs(): '"
                            ++ type_name a ++ "'")%string)
  end.

(** Python compares an int with a float by value, without rounding the int.
    [None] is the unordered case (the float is a NaN). *)
Definition Z_compare_float (z : Z) (f : float) : option comparison :=
  match Prim2SF f with
  | S754_nan => None
  | S754_infinity s => Some (if s then Gt else Lt)
  | S754_zero _ => Some (z ?= 0)
  | S754_finite s m e =>
      let v := if s then Z.neg m else Z.pos m in
      Some (if 0 <=? e then z ?= v * 2 ^ e else z * 2 ^ (- e) ?= v)
  end.

Definition num_eqb (x y : num) : bool :=
  match x, y with
  | NInt a, NInt b => a =? b
  | NInt a, NFloat g | NFloat g, NInt a =>
      match Z_compare_float a g with Some Eq => true | _ => false end
  | NFloat f, NFloat g => (f =? g)%float
  end.

(** [x < g] and [x >= g] for a float [g]. *)
Definition num_lt_float (x : num) (g : float) : bool :=
  match x with
  | NInt a => match Z_compare_float a g with Some Lt => true | _ => false end
  | NFloat f => (f <? g)%float
  end.

Definition num_ge_float (x : num) (g : float) : bool :=
  match x with
  | NInt a =>
      match Z_compare_float a g with Some Gt | Some Eq => true | _ => false end
  | NFloat f => (g <=? f)%float
  end.

Definition not_ordered (op : string) (a : pyval) : exn :=
  TypeError ("'" ++ op ++ "' not supported between instances of '"
             ++ type_name a ++ "' and 'float'")%string.

(** [a < g] where the right operand is a float. *)
Definition py_lt_float (a : pyval) (g : float) : result bool :=
  match to_num a with
  | Some x => Ok (num_lt_float x g)
  | None => Err (not_ordered "<" a)
  end.

(** [a >= g] where the right operand is a float. *)
Definition py_ge_float (a : pyval) (g : float) : result bool :=
  match to_num a with
  | Some x => Ok (num_ge_float x g)
  | None => Err (not_ordered ">=" a)
  end.

(** [a == b]: numbers compare by value, strings and lists structurally (the
    identity shortcut of list comparison is not modelled). *)
Fixpoint py_eq (a b : pyval) : bool :=
  match to_num a, to_num b with
  | Some x, Some y => num_eqb x y
  | _, _ =>
      match a, b with
      | VNone, VNone => true
      | VStr s, VStr t => String.eqb s t
      | VList l, VList m =>
          (fix all2 (l m : list pyval) : bool :=
             match l, m with
             | [], [] => true
             | x :: l', y :: m' => py_eq x y && all2 l' m'
             | _, _ => false
             end) l m
      | _, _ => false
      end
  end.

(** Iterating a value: a list yields its elements, a string its characters;
    nothing else in this universe is iterable. *)
Definition chars (s : string) : list pyval :=
  map (fun c => VStr (String c EmptyString)) (list_ascii_of_string s).

Definition py_iter (v : pyval) : result (list pyval) :=
  match v with
  | VList l => Ok l
  | VStr s => Ok (chars s)
  | _ => Err (TypeError ("'" ++ type_name v ++ "' object is not iterable")%string)
  end.

(** [len(v)] *)
Definition py_len (v : pyval) : result Z :=
  match v with
  | VList l => Ok (Z.of_nat (List.length l))
  | VStr s => Ok (Z.of_nat (String.length s))
  | _ => Err (TypeError ("object of type '" ++ type_name v
                         ++ "' has no len()")%string)
  end.

(** [sum(items)]: the items added left to right onto the int [0], as the
    language defines it.  (Recent interpreters add floats with a compensated
    algorithm that can change the last bits of an inexact float sum; which
    inputs raise, and which exception, is the same.) *)
Fixpoint py_sum_from (acc : pyval) (items : list pyval) : result pyval :=
  match items with
  | [] => Ok acc
  | x :: rest => rbind (py_add acc x) (fun acc' => py_sum_from acc' rest)
  end.

Definition py_sum (v : pyval) : result pyval :=
  rbind (py_iter v) (py_sum_from (VInt 0)).

(** [str(z)] for an int: its decimal numeral. *)
Definition str_int (z : Z) : string := NilZero.string_of_int (Z.to_int z).

(** ** Dictionaries

    A Python [dict] with string keys keeps its keys in insertion order and
    holds each key once: an association list with distinct keys. *)
Definition dict (V : Type) : Type := list (string * V).

Fixpoint dict_get {V} (k : string) (d : dict V) : option V :=
  match d with
  | [] => None
  | (k', v) :: d' => if String.eqb k k' then Some v else dict_get k d'
  end.

(** [d[k] = v]: an existing key keeps its place, a new key goes last. *)
Fixpoint dict_set {V} (k : string) (v : V) (d : dict V) : dict V :=
  match d with
  | [] => [(k, v)]
  | (k', v') :: d' =>
      if String.eqb k k' then (k', v) :: d' else (k', v') :: dict_set k v d'
  end.

Definition dict_keys {V} (d : dict V) : list string := map fst d.
Definition dict_values {V} (d : dict V) : list V := map snd d.

(** [dict(pairs)] *)
Definition dict_of_pairs {V} (pairs : list (string * V)) : dict V :=
  fold_left (fun d kv => dict_set (fst kv) (snd kv) d) pairs [].

(** ** The world: one instance, the random source, standard output

    The program creates one [RV] object; [w_self] is its [__dict__].  The
    module-level random source is a fixed sequence of floats [w_draws] (what a
    seed determines) and the number [w_drawn] of values already consumed.
    [w_out] holds the lines printed so far. *)
Record world : Type := mkWorld {
  w_self : dict pyval;
  w_draws : nat -> float;
  w_drawn : nat;
  w_out : list string
}.

(** Computations: state passing with exceptions; the effects made before an
    exception was raised stay. *)
Definition M (A : Type) : Type := world -> result A * world.

Definition ret {A} (a : A) : M A := fun w => (Ok a, w).
Definition raise {A} (e : exn) : M A := fun w => (Err e, w).
Definition bind {A B} (m : M A) (f : A -> M B) : M B :=
  fun w =>
    match m w with
    | (Ok a, w') => f a w'
    | (Err e, w') => (Err e, w')
    end.
Definition lift {A} (r : result A) : M A := fun w => (r, w).

Declare Scope py_scope.
Delimit Scope py_scope with py.
Notation "x <- m ;; k" := (bind m (fun x => k))
  (at level 61, m at next level, right associativity) : py_scope.
Notation "m ;; k" := (bind m (fun _ => k))
  (at level 61, right associativity) : py_scope.
Local Open Scope py_scope.

(** [print(line)] *)
Definition print (line : string) : M unit :=
  fun w => (Ok tt, mkWorld (w_self w) (w_draws w) (w_drawn w)
                           (w_out w ++ [line])).

(** [uniform(0, 1)] of the standard library: the next value of the random
    source. *)
Definition uniform01 : M float :=
  fun w => (Ok (w_draws w (w_drawn w)),
            mkWorld (w_self w) (w_draws w) (S (w_drawn w)) (w_out w)).

(** [instance.__dict__[name] = value] *)
Definition store (name : string) (value : pyval) : M unit :=
  fun w => (Ok tt, mkWorld (dict_set name value (w_self w)) (w_draws w)
                           (w_drawn w) (w_out w)).

(** [instance.__dict__[name]] *)
Definition load (name : string) : M pyval :=
  fun w =>
    match dict_get name (w_self w) with
    | Some v => (Ok v, w)
    | None => (Err (KeyError name), w)
    end.

(** ** The descriptor classes *)

Inductive dclass : Type :=
| Descriptor_
| TypeChecked
| List
| _Integers
| _Probabilities
| List_Integers
| List_Integers_
| List_Probabilities.

Definition dclass_eqb (a b : dclass) : bool :=
  match a, b with
  | Descriptor_, Descriptor_ | TypeChecked, TypeChecked | List, List
  | _Integers, _Integers | _Probabilities, _Probabilities
  | List_Integers, List_Integers | List_Integers_, List_Integers_
  | List_Probabilities, List_Probabilities => true
  | _, _ => false
  end.

(** The base classes of each class statement ([object] left out: it defines
    neither [ty] nor [__set__]). *)
Definition bases (c : dclass) : list dclass :=
  match c with
  | Descriptor_ => []
  | TypeChecked => [Descriptor_]
  | List => [TypeChecked]
  | _Integers => [Descriptor_]
  | _Probabilities => [Descriptor_]
  | List_Integers => [List; _Integers]
  | List_Integers_ => [List_Integers]
  | List_Probabilities => [List; _Probabilities]
  end.

(** C3 linearisation.  [c3_merge] takes the first head that is in the tail of
    no sequence, and goes on with that head removed everywhere. *)
Definition in_tail (c : dclass) (s : list dclass) : bool :=
  match s with
  | [] => false
  | _ :: t => existsb (dclass_eqb c) t
  end.

Definition good_head (seqs : list (list dclass)) : option dclass :=
  find (fun c => negb (existsb (in_tail c) seqs))
       (flat_map (fun s => match s with [] => [] | h :: _ => [h] end) seqs).

Definition drop_head (c : dclass) (s : list dclass) : list dclass :=
  match s with
  | h :: t => if dclass_eqb c h then t else s
  | [] => []
  end.

Fixpoint c3_merge (fuel : nat) (seqs : list (list dclass)) : list dclass :=
  match fuel with
  | O => []
  | S fuel' =>
      match good_head seqs with
      | None => []
      | Some c => c :: c3_merge fuel' (map (drop_head c) seqs)
      end
  end.

(** The method resolution order of each class, computed by [c3_merge] from
    the linearisations of its bases. *)
Definition mro (c : dclass) : list dclass :=
  let lin_Descriptor_ := [Descriptor_] in
  let lin_TypeChecked := TypeChecked :: c3_merge 8 [lin_Descriptor_; bases TypeChecked] in
  let lin_List := List :: c3_merge 8 [lin_TypeChecked; bases List] in
  let lin__Integers := _Integers :: c3_merge 8 [lin_Descriptor_; bases _Integers] in
  let lin__Probabilities :=
    _Probabilities :: c3_merge 8 [lin_Descriptor_; bases _Probabilities] in
  let lin_List_Integers :=
    List_Integers :: c3_merge 8 [lin_List; lin__Integers; bases List_Integers] in
  match c with
  | Descriptor_ => lin_Descriptor_
  | TypeChecked => lin_TypeChecked
  | List => lin_List
  | _Integers => lin__Integers
  | _Probabilities => lin__Probabilities
  | List_Integers => lin_List_Integers
  | List_Integers_ =>
      List_Integers_ :: c3_merge 8 [lin_List_Integers; bases List_Integers_]
  | List_Probabilities =>
      List_Probabilities
        :: c3_merge 8 [lin_List; lin__Probabilities; bases List_Probabilities]
  end.

(** The class attribute [ty], where a class body sets it. *)
Definition own_ty (c : dclass) : option pytype :=
  match c with
  | TypeChecked => Some Tobject
  | List => Some Tlist
  | _ => None
  end.

(** [self.ty]: the first class of the MRO that sets [ty]. *)
Fixpoint lookup_ty (chain : list dclass) : option pytype :=
  match chain with
  | [] => None
  | c :: rest =>
      match own_ty c with
      | Some t => Some t
      | None => lookup_ty rest
      end
  end.

(** A descriptor object: its class and the field name given to
    [Descriptor_.__init__]. *)
Record descriptor : Type := mkDescriptor {
  d_class : dclass;
  d_name : string
}.

(** [Descriptor_.__get__] *)
Definition Descriptor__get (self : descriptor) : M pyval :=
  load (d_name self).

(** [__set__], resolved along [chain] (the part of the MRO of [type(self)]
    still to be searched); [super().__set__] goes on with the rest of the
    chain.  The four bodies are those of [Descriptor_], [TypeChecked],
    [_Integers] and [_Probabilities]; the other classes define no [__set__]
    and the lookup passes them by. *)
Fixpoint set_along (self : descriptor) (chain : list dclass) (value : pyval)
  : M unit :=
  match chain with
  | [] => raise (AttributeError "'super' object has no attribute '__set__'")
  | c :: rest =>
      let super__set__ := set_along self rest in
      match c with
      | Descriptor_ => store (d_name self) value
      | TypeChecked =>
          match lookup_ty (mro (d_class self)) with
          | None => raise (AttributeError "ty")
          | Some ty =>
              if negb (isinstance value ty)
              then raise (TypeError ("Expected " ++ type_repr ty
                                     ++ " for field: " ++ d_name self ++ ".")%string)
              else super__set__ value
          end
      | _Integers =>
          items <- lift (py_iter value) ;;
          if negb (forallb (fun arg => isinstance arg Tint) items)
          then raise (TypeError "The List passed must consist of all Integer Values.")
          else super__set__ value
      | _Probabilities =>
          fun w =>
            match py_sum value with
            | Err (TypeError err) =>
                (print ("Probabilities required: " ++ err ++ ".")%string ;;
                 raise (TypeError err)) w
            | Err e => raise e w
            | Ok _sum =>
                (d <- lift (py_sub _sum (VFloat 1.0)) ;;
                 a <- lift (py_abs d) ;;
                 small <- lift (py_lt_float a 0.0001) ;;
                 if small
                 then super__set__ value
                 else raise (ValueError "Must be within Epsilon of 1.0.")) w
            end
      | List | List_Integers | List_Integers_ | List_Probabilities =>
          super__set__ value
      end
  end.

Definition descriptor_set (self : descriptor) (value : pyval) : M unit :=
  set_along self (mro (d_class self)) value.

(** ** The classes [RandomGen] and [RV]

    [RV] inherits every method of [RandomGen] and puts two descriptors in
    front of the fields [elements] and [probabilities].  The instance of the
    world is an [RV]. *)
Definition RV_descriptor (name : string) : option descriptor :=
  if String.eqb name "elements" then Some (mkDescriptor List_Integers_ "elements")
  else if String.eqb name "probabilities"
       then Some (mkDescriptor List_Probabilities "probabilities")
       else None.

(** [self.name = value]: through the data descriptor when the class has one
    for [name], into the instance dictionary otherwise. *)
Definition setattr (name : string) (value : pyval) : M unit :=
  match RV_descriptor name with
  | Some d => descriptor_set d value
  | None => store name value
  end.

(** [self.name] *)
Definition getattr (name : string) : M pyval :=
  match RV_descriptor name with
  | Some d => Descriptor__get d
  | None =>
      fun w =>
        match dict_get name (w_self w) with
        | Some v => (Ok v, w)
        | None => (Err (AttributeError ("'RV' object has no attribute '"
                                        ++ name ++ "'")%string), w)
        end
  end.

(** [RandomGen.__init__] *)
Definition __init__ (elements probabilities : pyval) : M unit :=
  setattr "elements" elements ;;
  setattr "probabilities" probabilities ;;
  l_elem <- lift (py_len elements) ;;
  setattr "l_elem" (VInt l_elem) ;;
  l_prob <- lift (py_len probabilities) ;;
  setattr "l_prob" (VInt l_prob).

(** [RV(elements, probabilities)]: a fresh object, then [__init__]. *)
Definition RV (elements probabilities : pyval) : M unit :=
  (fun w => (Ok tt, mkWorld [] (w_draws w) (w_drawn w) (w_out w))) ;;
  __init__ elements probabilities.

(** [RandomGen.list_tuple] *)
Definition list_tuple : M (list (pyval * pyval)) :=
  l_elem <- getattr "l_elem" ;;
  l_prob <- getattr "l_prob" ;;
  if py_eq l_elem l_prob
  then
    elements <- getattr "elements" ;;
    probabilities <- getattr "probabilities" ;;
    xs <- lift (py_iter elements) ;;
    ps <- lift (py_iter probabilities) ;;
    ret (combine xs ps)
  else raise (ValueError "Expecting to map each element to a probability.").

(** The [for] loop of [next_num]: [item] is the loop variable, unbound until
    the first iteration; the [return item] after the loop reads it. *)
Fixpoint next_num_loop (list_ : list (pyval * pyval)) (cdf : pyval) (r : float)
  (item : option pyval) : result pyval :=
  match list_ with
  | [] =>
      match item with
      | Some v => Ok v
      | None => Err (UnboundLocalError "item")
      end
  | (item', prob) :: rest =>
      rbind (py_add cdf prob) (fun cdf' =>
      rbind (py_ge_float cdf' r) (fun reached =>
      if reached then Ok item' else next_num_loop rest cdf' r (Some item')))
  end.

(** [RandomGen.next_num] *)
Definition next_num : M pyval :=
  list_ <- list_tuple ;;
  r <- uniform01 ;;
  lift (next_num_loop list_ (VInt 0) r None).

(** [RandomGen.get_elements], [RandomGen.get_probabilities] *)
Definition get_elements : M pyval := getattr "elements".
Definition get_probabilities : M pyval := getattr "probabilities".

(** ** Loops and the generator *)

(** [for i in range(n): acc = body(acc)]; the loops of the source do not use
    [i].  [range(n)] is empty for a negative [n]. *)
Fixpoint for_range {A} (k : nat) (body : A -> M A) (acc : A) : M A :=
  match k with
  | O => ret acc
  | S k' => acc' <- body acc ;; for_range k' body acc'
  end.

(** The generator object made by [self.generator_next(n)]: not yet started,
    suspended at the [yield] with [todo] iterations of [range(n)] to go, or
    finished. *)
Inductive gen : Type :=
| GenCreated (n : Z)
| GenSuspended (todo : nat)
| GenFinished.

(** Running the body of [generator_next] up to its next [yield]. *)
Definition gen_resume (todo : nat) : M (option pyval * gen) :=
  match todo with
  | O => ret (None, GenFinished)
  | S todo' => x <- next_num ;; ret (Some x, GenSuspended todo')
  end.

(** [next(g)]: [Some x] for a yielded [x], [None] for [StopIteration]. *)
Definition gen_next (g : gen) : M (option pyval * gen) :=
  match g with
  | GenCreated n => gen_resume (Z.to_nat n)
  | GenSuspended todo => gen_resume todo
  | GenFinished => ret (None, GenFinished)
  end.

(** [RandomGen.generator_next]: calling it only makes the generator object. *)
Definition generator_next (n : Z) : gen := GenCreated n.

(** [for elem in g: acc = body(acc, elem)], at most [fuel] calls of [next]. *)
Fixpoint for_gen_fuel {A} (fuel : nat) (g : gen) (body : A -> pyval -> M A)
  (acc : A) : M A :=
  match fuel with
  | O => raise Diverged
  | S fuel' =>
      step <- gen_next g ;;
      match step with
      | (None, _) => ret acc
      | (Some elem, g') =>
          acc' <- body acc elem ;; for_gen_fuel fuel' g' body acc'
      end
  end.

(** The number of [next] calls after which [g] has certainly stopped. *)
Definition gen_bound (g : gen) : nat :=
  match g with
  | GenCreated n => S (Z.to_nat n)
  | GenSuspended todo => S todo
  | GenFinished => 1
  end.

Definition for_gen {A} (g : gen) (body : A -> pyval -> M A) (acc : A) : M A :=
  for_gen_fuel (gen_bound g) g body acc.

(** [debug(prefix)(func)] for a string [prefix]: the wrapper prints
    [prefix + func.__qualname__] and calls [func]. *)
Definition debug (prefix qualname : string) {A} (func : M A) : M A :=
  print (prefix ++ qualname)%string ;; func.

(** ** Histograms *)

(** [dict_[key] += 1] *)
Definition dict_incr (key : string) (dict_ : dict Z) : M (dict Z) :=
  match dict_get key dict_ with
  | Some count => ret (dict_set key (count + 1) dict_)
  | None => raise (KeyError key)
  end.

(** The outcomes each mode hands to its consumer, in order: what
    [list(data.generator_next(n))] collects, and what [n] successive calls of
    [data.next_num()] return. *)
Definition lazy_draws (n : Z) : M (list pyval) :=
  for_gen (generator_next n) (fun acc elem => ret (acc ++ [elem])%list) [].

Definition batch_draws (n : Z) : M (list pyval) :=
  for_range (Z.to_nat n)
    (fun acc => output <- next_num ;; ret (acc ++ [output])%list) [].

(** [sum(dict_.values())] *)
Definition total (dict_ : dict Z) : Z := fold_right Z.add 0 (dict_values dict_).

Section Histograms.

(** [str] of an int or a bool is defined here.  [str] of the other values
    (the shortest round-trip numeral of a float, the [repr] of a list) is the
    interpreter's and stays a parameter; an [RV] never holds such an
    outcome. *)
Variable str_other : pyval -> string.

Definition py_str (v : pyval) : string :=
  match v with
  | VInt z => str_int z
  | VBool true => "True"
  | VBool false => "False"
  | VNone => "None"
  | VStr s => s
  | _ => str_other v
  end.

(** [dict(zip(keys, [0 for _ in keys]))] *)
Definition zero_counts (keys : list string) : dict Z :=
  dict_of_pairs (combine keys (map (fun _ => 0) keys)).

(** [generator_(n, data)], [data] being the instance of the world. *)
Definition generator_ (n : Z) : M (dict Z) :=
  elements <- get_elements ;;
  items <- lift (py_iter elements) ;;
  let keys := map py_str items in
  let dict_ := zero_counts keys in
  for_range (Z.to_nat n)
    (fun dict_ => output <- next_num ;; dict_incr (py_str output) dict_)
    dict_.

(** The body of [generator(n, data)], before decoration. *)
Definition generator_body (n : Z) : M (dict Z) :=
  elements <- get_elements ;;
  items <- lift (py_iter elements) ;;
  let keys := map py_str items in
  let dict_ := zero_counts keys in
  let nums := generator_next n in
  for_gen nums (fun dict_ elem => dict_incr (py_str elem) dict_) dict_.

(** [generator], decorated with [debug]. *)
Definition generator (n : Z) : M (dict Z) :=
  debug "Decorator - Using the Class's method that consists of a Generator: "
        "generator" (generator_body n).

End Histograms.

(** ** Notions used to state the properties *)

(** The expression [abs(_sum - 1.0) < 0.0001], evaluated on a value [_sum]. *)
Definition within_epsilon (_sum : pyval) : result bool :=
  rbind (py_sub _sum (VFloat 1.0)) (fun d =>
  rbind (py_abs d) (fun a => py_lt_float a 0.0001)).

(** The expression [abs(sum(probabilities) - 1.0) < 1e-4]. *)
Definition sum_within_epsilon (probabilities : pyval) : result bool :=
  rbind (py_sum probabilities) within_epsilon.

(** The [__dict__] of an instance that [__init__] completed on the lists
    [outcomes] and [probabilities]. *)
Definition instance_dict (outcomes probabilities : list pyval) : dict pyval :=
  [ ("elements"%string, VList outcomes);
    ("probabilities"%string, VList probabilities);
    ("l_elem"%string, VInt (Z.of_nat (List.length outcomes)));
    ("l_prob"%string, VInt (Z.of_nat (List.length probabilities))) ].

(** The world after [k] more draws from the random source. *)
Definition after_draws (k : nat) (w : world) : world :=
  mkWorld (w_self w) (w_draws w) (k + w_drawn w) (w_out w).

(** The world with other lines on standard output. *)
Definition with_out (out : list string) (w : world) : world :=
  mkWorld (w_self w) (w_draws w) (w_drawn w) out.

(** A computation that prints nothing and does not look at what was printed. *)
Definition silent {A} (m : M A) : Prop :=
  forall w out, m (with_out out w) = (fst (m w), with_out out (snd (m w))).

(** The running cumulative sum after the first [k] probabilities were added. *)
Definition running_cdf (probabilities : list pyval) (k : nat) : result pyval :=
  py_sum_from (VInt 0) (firstn k probabilities).

(** Outcome number [i] (from 0) satisfies [cdf >= r] once its probability is
    added. *)
Definition reached (r : float) (probabilities : list pyval) (i : nat) : Prop :=
  exists cdf, running_cdf probabilities (S i) = Ok cdf
              /\ py_ge_float cdf r = Ok true.

(** [x] is the first outcome, in order, that satisfies the condition. *)
Definition first_reached (r : float) (outcomes probabilities : list pyval)
  (x : pyval) : Prop :=
  exists i, nth_error outcomes i = Some x
            /\ reached r probabilities i
            /\ forall j, (j < i)%nat -> ~ reached r probabilities j.

(** No outcome satisfies the condition and [x] is the last outcome. *)
Definition none_reached_last (r : float) (outcomes probabilities : list pyval)
  (x : pyval) : Prop :=
  (forall j, (j < List.length outcomes)%nat -> ~ reached r probabilities j)
  /\ nth_error outcomes (List.length outcomes - 1)%nat = Some x.

(** A starting world for concrete runs: no instance yet, a random source
    that alternates between 0.3 and 0.7, nothing printed. *)
Definition world0 : world :=
  mkWorld [] (fun k => if Nat.even k then 0.3%float else 0.7%float) 0 [].

(** [isinstance(arg, int)], the test [_Integers] applies to each element. *)
Definition is_int (arg : pyval) : bool := isinstance arg Tint.

(** The exceptions arithmetic on values can raise. *)
Definition arithmetic_error (e : exn) : Prop :=
  (exists msg, e = TypeError msg) \/ (exists msg, e = OverflowError msg).

(** The line the decorated [generator] prints. *)
Definition debug_line : string :=
  "Decorator - Using the Class's method that consists of a Generator: generator".

(** Recent interpreters refuse to convert an int whose numeral has more
    than 4300 digits to a string (their default limit): [str] then raises
    [ValueError].  [py_str] does not model that refusal; the properties
    about the keys of a histogram are stated for values within the limit. *)
Definition numeral_digits (z : Z) : nat := String.length (str_int (Z.abs z)).

Definition within_str_limit (v : pyval) : bool :=
  match v with
  | VInt z => (numeral_digits z <=? 4300)%nat
  | _ => true
  end.

(** What the specification asks of a histogram over [keys] after [n] draws:
    one counter per key, counts that are not negative and add up to [n]. *)
Definition histogram_of (keys : list string) (n : Z) (h : dict Z) : Prop :=
  NoDup (dict_keys h)
  /\ (forall k, In k (dict_keys h) <-> In k keys)
  /\ Forall (fun c => 0 <= c) (dict_values h)
  /\ total h = n.

(** ** Deleting a field *)

(** [del d[k]] on a dictionary that holds [k]: the entry under [k] goes (a
    dictionary holds a key once), the others keep their order. *)
Fixpoint dict_del {V} (k : string) (d : dict V) : dict V :=
  match d with
  | [] => []
  | (k', v) :: d' =>
      if String.eqb k k' then dict_del k d' else (k', v) :: dict_del k d'
  end.

(** [Descriptor_.__delete__]: what [del instance.name] runs for a field
    that has a descriptor. *)
Definition Descriptor__delete (self : descriptor) : M unit :=
  print ("Delete " ++ d_name self)%string ;;
  fun w =>
    match dict_get (d_name self) (w_self w) with
    | Some _ =>
        (Ok tt, mkWorld (dict_del (d_name self) (w_self w)) (w_draws w)
                        (w_drawn w) (w_out w))
    | None => (Err (KeyError (d_name self)), w)
    end.

(** ** The unit tests at the end of the module *)

(** What a test can raise: an exception of the code above, or one of the
    three below. *)
Inductive check_exn : Type :=
| Raised (e : exn)
| AssertionError (msg : string)
| ZeroDivisionError (msg : string)
| IndexError (msg : string).

Inductive checked (A : Type) : Type :=
| Done (a : A)
| Thrown (e : check_exn).
Arguments Done {A} a.
Arguments Thrown {A} e.

Definition of_result {A} (r : result A) : checked A :=
  match r with
  | Ok a => Done a
  | Err e => Thrown (Raised e)
  end.

(** An int as an exact (unrounded) binary number. *)
Definition spec_of_int (z : Z) : spec_float :=
  match z with
  | Z0 => S754_zero false
  | Zpos p => S754_finite false p 0
  | Zneg p => S754_finite true p 0
  end.

(** [a / b] on two ints: the quotient correctly rounded to a float. *)
Definition int_truediv (a b : Z) : checked float :=
  if b =? 0 then Thrown (ZeroDivisionError "division by zero")
  else
    let f := SF2Prim (SFdiv prec emax (spec_of_int a) (spec_of_int b)) in
    if is_infinity f
    then Thrown (Raised (OverflowError
                           "integer division result too large for a float"))
    else Done f.

(** [[(v / n) for v in values]] *)
Fixpoint ratios (values : list Z) (n : Z) : checked (list float) :=
  match values with
  | [] => Done []
  | v :: rest =>
      match int_truediv v n with
      | Thrown e => Thrown e
      | Done q =>
          match ratios rest n with
          | Thrown e => Thrown e
          | Done qs => Done (q :: qs)
          end
      end
  end.

(** [test_sum(dict_, n)] *)
Definition test_sum (dict_ : dict Z) (n : Z) : checked unit :=
  if total dict_ =? n then Done tt
  else Thrown (AssertionError ("Should equal " ++ str_int n ++ ".")%string).

(** [prob_sum(dict_, n)] *)
Definition prob_sum (dict_ : dict Z) (n : Z) : checked unit :=
  match ratios (dict_values dict_) n with
  | Thrown e => Thrown e
  | Done probabilities =>
      match
        rbind (py_sum (VList (map VFloat probabilities))) (fun s =>
        rbind (py_sub s (VFloat 1.0)) (fun d =>
        rbind (py_abs d) (fun a => py_lt_float a 0.00001)))
      with
      | Err e => Thrown (Raised e)
      | Ok true => Done tt
      | Ok false =>
          Thrown (AssertionError "Should equal 1.0, or within epsilon.")
      end
  end.

(** The loop of [probability]: [i] counts the probabilities already
    tested.  Each round prints three lines and then asserts. *)
Fixpoint probability_loop (str_other : pyval -> string) (output : list float)
  (i : nat) (prob_ : list pyval) (w : world) : checked unit * world :=
  match prob_ with
  | [] => (Done tt, w)
  | p :: rest =>
      let w1 :=
        snd (print ("Actual probability: " ++ py_str str_other p ++ ".")%string w) in
      match nth_error output i with
      | None => (Thrown (IndexError "list index out of range"), w1)
      | Some o =>
          let w2 :=
            snd (print ("Computed probabily: " ++ py_str str_other (VFloat o)
                        ++ ".")%string w1) in
          match rbind (py_sub p (VFloat o)) py_abs with
          | Err e => (Thrown (Raised e), w2)
          | Ok difference =>
              let w3 :=
                snd (print ("Difference: " ++ py_str str_other difference
                            ++ ".")%string w2) in
              match py_lt_float difference 0.15 with
              | Err e => (Thrown (Raised e), w3)
              | Ok true => probability_loop str_other output (S i) rest w3
              | Ok false =>
                  (Thrown (AssertionError
                     "The number of counts obtained for the element is too improbable under Asymptotic Conditions."),
                   w3)
              end
          end
      end
  end.

(** [probability(dict_, n, prob_)] *)
Definition probability (str_other : pyval -> string) (dict_ : dict Z) (n : Z)
  (prob_ : list pyval) (w : world) : checked unit * world :=
  match ratios (dict_values dict_) n with
  | Thrown e => (Thrown e, w)
  | Done output => probability_loop str_other output 0 prob_ w
  end.

(** ** Basic facts: results, dictionaries, the monad *)

Lemma rbind_Ok_inv {A B} (r : result A) (f : A -> result B) (b : B) :
  rbind r f = Ok b -> exists a, r = Ok a /\ f a = Ok b.
Proof.
  destruct r as [a|e]; simpl; intros H; [eauto | discriminate].
Qed.

Lemma world_eta (w : world) :
  mkWorld (w_self w) (w_draws w) (w_drawn w) (w_out w) = w.
Proof. destruct w; reflexivity. Qed.

Lemma dict_keys_set_present {V} (k : string) (v c : V) (d : dict V) :
  dict_get k d = Some c -> dict_keys (dict_set k v d) = dict_keys d.
Proof.
  unfold dict_keys.
  induction d as [|[k' v'] d IH]; simpl; [discriminate|].
  destruct (String.eqb k k') eqn:E; simpl; [reflexivity|].
  intros H. now rewrite IH.
Qed.

Lemma dict_keys_set_In {V} (k k0 : string) (v : V) (d : dict V) :
  In k0 (dict_keys (dict_set k v d)) <-> k0 = k \/ In k0 (dict_keys d).
Proof.
  unfold dict_keys.
  induction d as [|[k' v'] d IH]; simpl.
  - intuition congruence.
  - destruct (String.eqb k k') eqn:E; simpl.
    + apply String.eqb_eq in E. subst k'. intuition congruence.
    + rewrite IH. intuition congruence.
Qed.

Lemma dict_keys_set_NoDup {V} (k : string) (v : V) (d : dict V) :
  NoDup (dict_keys d) -> NoDup (dict_keys (dict_set k v d)).
Proof.
  unfold dict_keys.
  induction d as [|[k' v'] d IH]; simpl; intros ND.
  - constructor; [intros [] | constructor].
  - inversion ND as [|? ? Hnin ND']; subst.
    destruct (String.eqb k k') eqn:E; simpl.
    + constructor; assumption.
    + constructor; [|auto].
      intros Hin. apply (dict_keys_set_In k k' v d) in Hin.
      destruct Hin as [->|Hin]; [|contradiction].
      now rewrite String.eqb_refl in E.
Qed.

Lemma dict_get_In_keys {V} (k : string) (d : dict V) :
  In k (dict_keys d) -> exists v, dict_get k d = Some v.
Proof.
  unfold dict_keys.
  induction d as [|[k' v'] d IH]; simpl; [intros []|].
  intros [->|Hin].
  - rewrite String.eqb_refl. eauto.
  - destruct (String.eqb k k'); eauto.
Qed.

Lemma dict_get_In_values {V} (k : string) (v : V) (d : dict V) :
  dict_get k d = Some v -> In v (dict_values d).
Proof.
  unfold dict_values.
  induction d as [|[k' v'] d IH]; simpl; [discriminate|].
  destruct (String.eqb k k'); [intros [= ->]; auto | auto].
Qed.

Lemma dict_values_set_Forall {V} (P : V -> Prop) (k : string) (v : V)
  (d : dict V) :
  P v -> Forall P (dict_values d) -> Forall P (dict_values (dict_set k v d)).
Proof.
  unfold dict_values. intros Pv.
  induction d as [|[k' v'] d IH]; simpl; intros F.
  - constructor; auto.
  - inversion F; subst.
    destruct (String.eqb k k'); simpl; constructor; auto.
Qed.

Lemma total_set_present (k : string) (c c' : Z) (d : dict Z) :
  dict_get k d = Some c -> total (dict_set k c' d) = total d + (c' - c).
Proof.
  unfold total, dict_values.
  induction d as [|[k' v'] d IH]; simpl; [discriminate|].
  destruct (String.eqb k k'); simpl.
  - intros [= ->]. lia.
  - intros H. rewrite (IH H). lia.
Qed.

(** ** The two validated fields *)

(** What assigning [elements] does to a list, after the MRO
    [List_Integers_, List_Integers, List, TypeChecked, _Integers, Descriptor_]
    is followed. *)
Lemma setattr_elements_list (l : list pyval) (w : world) :
  setattr "elements" (VList l) w =
  if forallb (fun arg => isinstance arg Tint) l
  then store "elements" (VList l) w
  else (Err (TypeError "The List passed must consist of all Integer Values."), w).
Proof.
  unfold setattr.
  change (RV_descriptor "elements")
    with (Some (mkDescriptor List_Integers_ "elements")).
  unfold descriptor_set.
  change (mro _)
    with [List_Integers_; List_Integers; List; TypeChecked; _Integers; Descriptor_].
  cbn -[forallb store]. unfold bind, lift.
  destruct (forallb _ l); reflexivity.
Qed.

Lemma setattr_elements_not_list (v : pyval) (w : world) :
  isinstance v Tlist = false ->
  setattr "elements" v w =
  (Err (TypeError "Expected <class 'list'> for field: elements."), w).
Proof. destruct v; simpl; intros H; try discriminate; reflexivity. Qed.

(** What assigning [probabilities] does to a list, after the MRO
    [List_Probabilities, List, TypeChecked, _Probabilities, Descriptor_]
    is followed. *)
Lemma setattr_probabilities_list (l : list pyval) (w : world) :
  setattr "probabilities" (VList l) w =
  match py_sum_from (VInt 0) l with
  | Err (TypeError err) =>
      (Err (TypeError err),
       with_out (w_out w ++ [("Probabilities required: " ++ err ++ ".")%string]) w)
  | Err e => (Err e, w)
  | Ok s =>
      match within_epsilon s with
      | Ok true => store "probabilities" (VList l) w
      | Ok false => (Err (ValueError "Must be within Epsilon of 1.0."), w)
      | Err e => (Err e, w)
      end
  end.
Proof.
  unfold setattr.
  change (RV_descriptor "probabilities")
    with (Some (mkDescriptor List_Probabilities "probabilities")).
  unfold descriptor_set, within_epsilon.
  change (mro _)
    with [List_Probabilities; List; TypeChecked; _Probabilities; Descriptor_].
  cbn -[py_sum_from store print py_sub py_abs py_lt_float].
  destruct (py_sum_from (VInt 0) l) as [s|e].
  - unfold bind, lift.
    destruct (py_sub s _) as [d|e]; cbn -[py_abs py_lt_float store]; [|reflexivity].
    destruct (py_abs d) as [a|e]; cbn -[py_lt_float store]; [|reflexivity].
    destruct (py_lt_float a _) as [[|]|e]; reflexivity.
  - destruct e; reflexivity.
Qed.

Lemma setattr_probabilities_not_list (v : pyval) (w : world) :
  isinstance v Tlist = false ->
  setattr "probabilities" v w =
  (Err (TypeError "Expected <class 'list'> for field: probabilities."), w).
Proof. destruct v; simpl; intros H; try discriminate; reflexivity. Qed.

(** A successful assignment of [elements]: the value is a list of ints and
    is stored. *)
Lemma setattr_elements_Ok (v : pyval) (w w' : world) :
  setattr "elements" v w = (Ok tt, w') ->
  exists l, v = VList l
            /\ forallb (fun arg => isinstance arg Tint) l = true
            /\ w' = mkWorld (dict_set "elements" v (w_self w)) (w_draws w)
                            (w_drawn w) (w_out w).
Proof.
  destruct v as [| | | | |l];
    try (rewrite setattr_elements_not_list by reflexivity; discriminate).
  rewrite setattr_elements_list.
  destruct (forallb _ l) eqn:E; [|discriminate].
  unfold store. intros [= <-]. exists l. auto.
Qed.

(** A successful assignment of [probabilities]: the value is a list whose
    sum passes the epsilon test, and is stored. *)
Lemma setattr_probabilities_Ok (v : pyval) (w w' : world) :
  setattr "probabilities" v w = (Ok tt, w') ->
  exists l s, v = VList l
              /\ py_sum_from (VInt 0) l = Ok s
              /\ within_epsilon s = Ok true
              /\ w' = mkWorld (dict_set "probabilities" v (w_self w)) (w_draws w)
                              (w_drawn w) (w_out w).
Proof.
  destruct v as [| | | | |l];
    try (rewrite setattr_probabilities_not_list by reflexivity; discriminate).
  rewrite setattr_probabilities_list.
  destruct (py_sum_from (VInt 0) l) as [s|e] eqn:Es.
  - destruct (within_epsilon s) as [[|]|e] eqn:E; try discriminate.
    unfold store. intros [= <-]. exists l, s. repeat split; auto.
  - destruct e; discriminate.
Qed.

(** A completed construction: both arguments are lists, the outcomes are
    ints, the probabilities passed the epsilon test, and the instance holds
    the two lists and their lengths; nothing was drawn or printed. *)
Lemma RV_Ok_inv (elements probabilities : pyval) (w0 w : world) :
  RV elements probabilities w0 = (Ok tt, w) ->
  exists outcomes probs s,
    elements = VList outcomes /\ probabilities = VList probs
    /\ forallb (fun arg => isinstance arg Tint) outcomes = true
    /\ py_sum_from (VInt 0) probs = Ok s /\ within_epsilon s = Ok true
    /\ w = mkWorld (instance_dict outcomes probs) (w_draws w0) (w_drawn w0)
                   (w_out w0).
Proof.
  unfold RV, __init__, bind at 1 2.
  destruct (setattr "elements" elements _) as [[[]|e] w1] eqn:E1; [|discriminate].
  apply setattr_elements_Ok in E1. destruct E1 as (outcomes & -> & Hint & ->).
  unfold bind at 1.
  destruct (setattr "probabilities" probabilities _) as [[[]|e] w2] eqn:E2;
    [|discriminate].
  apply setattr_probabilities_Ok in E2.
  destruct E2 as (probs & s & -> & Hsum & Heps & ->).
  cbn. intros [= <-]. exists outcomes, probs, s. repeat split; auto.
Qed.

(** The converse: two such lists are accepted. *)
Lemma RV_Ok_intro (outcomes probs : list pyval) (s : pyval) (w0 : world) :
  forallb (fun arg => isinstance arg Tint) outcomes = true ->
  py_sum_from (VInt 0) probs = Ok s -> within_epsilon s = Ok true ->
  RV (VList outcomes) (VList probs) w0
  = (Ok tt, mkWorld (instance_dict outcomes probs) (w_draws w0) (w_drawn w0)
                    (w_out w0)).
Proof.
  intros Hint Hsum Heps.
  unfold RV, __init__, bind at 1 2.
  rewrite setattr_elements_list, Hint. unfold store at 1, bind at 1.
  rewrite setattr_probabilities_list, Hsum, Heps. reflexivity.
Qed.

(** ** Numbers stay numbers *)

Lemma py_add_numeric (a b c : pyval) :
  is_numeric a = true -> py_add a b = Ok c ->
  is_numeric b = true /\ is_numeric c = true.
Proof.
  intros Ha H.
  destruct a; try discriminate Ha; destruct b;
    cbn -[float_of_int] in H; try discriminate H;
    repeat match goal with
           | H : rbind ?r _ = Ok _ |- _ =>
               destruct r; cbn -[float_of_int] in H; try discriminate H
           end;
    injection H as <-; auto.
Qed.

Lemma py_add_non_numeric (a b : pyval) :
  is_numeric a = true -> is_numeric b = false ->
  py_add a b = Err (unsupported "+" a b).
Proof.
  intros Ha Hb.
  destruct a; try discriminate Ha; destruct b; try discriminate Hb; reflexivity.
Qed.

Lemma float_of_int_Err (z : Z) (e : exn) :
  float_of_int z = Err e -> e = OverflowError "int too large to convert to float".
Proof. unfold float_of_int. destruct (is_infinity _); congruence. Qed.

Lemma py_ge_float_numeric (c : pyval) (r : float) :
  is_numeric c = true -> exists b, py_ge_float c r = Ok b.
Proof.
  unfold is_numeric, py_ge_float. destruct (to_num c); [eauto | discriminate].
Qed.

Lemma py_sum_from_app (acc : pyval) (l1 l2 : list pyval) :
  py_sum_from acc (l1 ++ l2)
  = rbind (py_sum_from acc l1) (fun acc' => py_sum_from acc' l2).
Proof.
  revert acc. induction l1 as [|x l1 IH]; intros acc; simpl; [reflexivity|].
  destruct (py_add acc x); simpl; auto.
Qed.

Lemma firstn_succ_app {A} (pre : list A) (p : A) (rest : list A) :
  firstn (S (List.length pre)) (pre ++ p :: rest) = pre ++ [p].
Proof.
  induction pre as [|a pre IH]; simpl; [reflexivity|].
  simpl in IH. now rewrite IH.
Qed.

Lemma running_cdf_next (pre : list pyval) (p : pyval) (rest : list pyval)
  (cdf : pyval) :
  py_sum_from (VInt 0) pre = Ok cdf ->
  running_cdf (pre ++ p :: rest) (S (List.length pre)) = py_add cdf p.
Proof.
  intros H. unfold running_cdf.
  rewrite firstn_succ_app, py_sum_from_app, H. simpl.
  destruct (py_add cdf p); reflexivity.
Qed.

Lemma map_fst_combine_eq {A B} (l : list A) (m : list B) :
  List.length l = List.length m -> map fst (combine l m) = l.
Proof.
  revert m. induction l as [|a l IH]; intros [|b m]; simpl; try discriminate;
    [reflexivity|].
  intros [= H]. now rewrite IH.
Qed.

Lemma map_snd_combine_eq {A B} (l : list A) (m : list B) :
  List.length l = List.length m -> map snd (combine l m) = m.
Proof.
  revert m. induction l as [|a l IH]; intros [|b m]; simpl; try discriminate;
    [reflexivity|].
  intros [= H]. now rewrite IH.
Qed.

Lemma nth_error_last_snoc {A} (l : list A) (a : A) :
  nth_error (l ++ [a]) (List.length (l ++ [a]) - 1)%nat = Some a.
Proof.
  rewrite length_app. simpl.
  replace (List.length l + 1 - 1)%nat with (List.length l) by lia.
  rewrite nth_error_app2 by lia. now rewrite Nat.sub_diag.
Qed.

(** ** The scan of [next_num] *)

(** The loop, started after the outcomes [pre_e] (probabilities [pre_p], none
    of which satisfied the condition) with their sum [cdf], returns the first
    remaining outcome that satisfies it, or else the last outcome. *)
Lemma next_num_loop_spec (r : float) :
  forall (suf : list (pyval * pyval)) (pre_e pre_p : list pyval) (cdf s : pyval),
    List.length pre_e = List.length pre_p ->
    py_sum_from (VInt 0) pre_p = Ok cdf ->
    is_numeric cdf = true ->
    py_sum_from cdf (map snd suf) = Ok s ->
    (forall j, (j < List.length pre_e)%nat ->
               ~ reached r (pre_p ++ map snd suf) j) ->
    (0 < List.length (pre_e ++ map fst suf))%nat ->
    exists x,
      next_num_loop suf cdf r (nth_error pre_e (List.length pre_e - 1)%nat) = Ok x
      /\ (first_reached r (pre_e ++ map fst suf) (pre_p ++ map snd suf) x
          \/ none_reached_last r (pre_e ++ map fst suf) (pre_p ++ map snd suf) x).
Proof.
  induction suf as [|[it p] rest IH];
    intros pre_e pre_p cdf s Hlen Hpre Hnum Hsum Hnot Hpos.
  - simpl in *. rewrite !app_nil_r in *.
    destruct (nth_error pre_e (List.length pre_e - 1)%nat) as [x|] eqn:E.
    + exists x. split; [reflexivity|]. right. split; assumption.
    + apply nth_error_None in E. lia.
  - simpl in Hsum. apply rbind_Ok_inv in Hsum. destruct Hsum as (cdf' & Hadd & Hsum).
    destruct (py_add_numeric _ _ _ Hnum Hadd) as [_ Hnum'].
    destruct (py_ge_float_numeric cdf' r Hnum') as [b Hge].
    assert (Hcdf : running_cdf (pre_p ++ p :: map snd rest) (S (List.length pre_e))
                   = Ok cdf').
    { rewrite Hlen, (running_cdf_next _ _ _ _ Hpre). exact Hadd. }
    simpl. rewrite Hadd. simpl. rewrite Hge. simpl.
    destruct b.
    + exists it. split; [reflexivity|]. left. exists (List.length pre_e).
      split; [|split].
      * rewrite nth_error_app2 by lia. now rewrite Nat.sub_diag.
      * exists cdf'. auto.
      * exact Hnot.
    + specialize (IH (pre_e ++ [it]) (pre_p ++ [p]) cdf' s).
      rewrite nth_error_last_snoc in IH.
      rewrite <- !app_assoc in IH. simpl in IH.
      apply IH; clear IH.
      * rewrite !length_app. simpl. lia.
      * rewrite py_sum_from_app, Hpre. simpl. now rewrite Hadd.
      * exact Hnum'.
      * exact Hsum.
      * intros j Hj. rewrite length_app in Hj. simpl in Hj.
        destruct (Nat.eq_dec j (List.length pre_e)) as [->|Hne].
        -- intros (c & Hc & Hc'). rewrite Hcdf in Hc. congruence.
        -- apply Hnot. lia.
      * rewrite length_app. simpl. lia.
Qed.

(** ** Sampling from an instance *)

Lemma list_tuple_instance (outcomes probs : list pyval) (w : world) :
  w_self w = instance_dict outcomes probs ->
  list_tuple w =
  if Z.of_nat (List.length outcomes) =? Z.of_nat (List.length probs)
  then (Ok (combine outcomes probs), w)
  else (Err (ValueError "Expecting to map each element to a probability."), w).
Proof.
  destruct w as [slf dr k out]. simpl. intros ->.
  unfold list_tuple, bind, getattr. cbn.
  destruct (_ =? _); reflexivity.
Qed.

(** The sum of no probabilities is the int 0, which fails the epsilon test. *)
Lemma within_epsilon_nonempty (probs : list pyval) (s : pyval) :
  py_sum_from (VInt 0) probs = Ok s -> within_epsilon s = Ok true -> probs <> [].
Proof.
  intros Hs He ->. simpl in Hs. injection Hs as <-.
  vm_compute in He. discriminate.
Qed.

(** One draw from an instance with as many outcomes as probabilities, the
    latter summing without error: the draw succeeds, consumes one random
    value and returns the outcome the scan selects. *)
Lemma next_num_instance (outcomes probs : list pyval) (s : pyval) (w : world) :
  w_self w = instance_dict outcomes probs ->
  List.length outcomes = List.length probs ->
  py_sum_from (VInt 0) probs = Ok s ->
  probs <> [] ->
  exists x,
    next_num w = (Ok x, after_draws 1 w)
    /\ (first_reached (w_draws w (w_drawn w)) outcomes probs x
        \/ none_reached_last (w_draws w (w_drawn w)) outcomes probs x).
Proof.
  intros Hself Hlen Hsum Hne.
  destruct (next_num_loop_spec (w_draws w (w_drawn w)) (combine outcomes probs)
              [] [] (VInt 0) s) as (x & Hloop & Hspec); try reflexivity.
  - now rewrite map_snd_combine_eq.
  - simpl. intros j Hj. lia.
  - simpl. rewrite map_fst_combine_eq by assumption.
    destruct outcomes, probs; simpl in *; try discriminate; try lia.
    now elim Hne.
  - simpl in Hloop, Hspec.
    rewrite map_fst_combine_eq, map_snd_combine_eq in Hspec by assumption.
    exists x. split; [|exact Hspec].
    unfold next_num, bind. rewrite (list_tuple_instance _ _ _ Hself).
    rewrite Hlen, Z.eqb_refl. unfold uniform01, lift, after_draws.
    now rewrite Hloop.
Qed.

Lemma selected_In (r : float) (outcomes probs : list pyval) (x : pyval) :
  first_reached r outcomes probs x \/ none_reached_last r outcomes probs x ->
  In x outcomes.
Proof.
  intros [(i & Hi & _) | (_ & Hl)]; eapply nth_error_In; eassumption.
Qed.

(** ** Computations that leave standard output alone *)

Lemma silent_ret {A} (a : A) : silent (ret a).
Proof. intros w out. reflexivity. Qed.

Lemma silent_raise {A} (e : exn) : silent (@raise A e).
Proof. intros w out. reflexivity. Qed.

Lemma silent_lift {A} (r : result A) : silent (lift r).
Proof. intros w out. reflexivity. Qed.

Lemma silent_bind {A B} (m : M A) (f : A -> M B) :
  silent m -> (forall a, silent (f a)) -> silent (bind m f).
Proof.
  intros Hm Hf w out. unfold bind. rewrite Hm.
  destruct (m w) as [[a|e] w']; simpl; [apply Hf | reflexivity].
Qed.

Lemma silent_getattr (name : string) : silent (getattr name).
Proof.
  intros w out. unfold getattr, Descriptor__get, load.
  destruct (RV_descriptor name); simpl;
    match goal with |- context [dict_get ?k ?d] => destruct (dict_get k d) end;
    reflexivity.
Qed.

Lemma silent_uniform01 : silent uniform01.
Proof. intros w out. reflexivity. Qed.

Create HintDb silent.
#[local] Hint Resolve silent_ret silent_raise silent_lift silent_getattr
  silent_uniform01 : silent.

Ltac silent_steps :=
  repeat first [ apply silent_bind; [|intros ?] | solve [auto with silent] ].

Lemma silent_list_tuple : silent list_tuple.
Proof.
  unfold list_tuple. silent_steps.
  match goal with |- context [py_eq ?a ?b] => destruct (py_eq a b) end;
    silent_steps.
Qed.

Lemma silent_next_num : silent next_num.
Proof.
  unfold next_num. apply silent_bind; [apply silent_list_tuple | intros ?].
  silent_steps.
Qed.

Lemma silent_dict_incr (key : string) (d : dict Z) : silent (dict_incr key d).
Proof. unfold dict_incr. destruct (dict_get key d); auto with silent. Qed.

Lemma silent_for_range {A} (k : nat) (body : A -> M A) :
  (forall a, silent (body a)) -> forall acc, silent (for_range k body acc).
Proof.
  intros Hb. induction k as [|k IH]; intros acc; simpl.
  - apply silent_ret.
  - apply silent_bind; auto.
Qed.

Lemma silent_generator_ (str_other : pyval -> string) (n : Z) :
  silent (generator_ str_other n).
Proof.
  unfold generator_, get_elements.
  apply silent_bind; [apply silent_getattr | intros els].
  apply silent_bind; [apply silent_lift | intros items].
  apply silent_for_range. intros d.
  apply silent_bind; [apply silent_next_num | intros x].
  apply silent_dict_incr.
Qed.

(** ** The generator feeds its consumer what the eager loop computes *)

(** Driving the suspended generator with any fuel above its remaining
    iterations is the eager loop with the consumer's body after each draw. *)
Lemma for_gen_fuel_suspended {A} (body : A -> pyval -> M A) :
  forall (k fuel : nat) (acc : A) (w : world),
    (k < fuel)%nat ->
    for_gen_fuel fuel (GenSuspended k) body acc w
    = for_range k (fun a => bind next_num (body a)) acc w.
Proof.
  induction k as [|k IH]; intros fuel acc w Hlt;
    (destruct fuel as [|fuel]; [lia|]).
  - reflexivity.
  - simpl. unfold bind.
    destruct (next_num w) as [[x|e] w1]; simpl; [|reflexivity].
    destruct (body acc x w1) as [[acc'|e] w2]; [|reflexivity].
    rewrite IH by lia. reflexivity.
Qed.

Lemma for_gen_fuel_created {A} (body : A -> pyval -> M A) (n : Z) (fuel : nat)
  (acc : A) (w : world) :
  for_gen_fuel fuel (GenCreated n) body acc w
  = for_gen_fuel fuel (GenSuspended (Z.to_nat n)) body acc w.
Proof. destruct fuel; reflexivity. Qed.

(** The fuel [for_gen] supplies is enough: more fuel changes nothing, so the
    loop always ends because the generator stopped (or an exception was
    raised), never because the fuel ran out. *)
Lemma for_gen_fuel_enough {A} (body : A -> pyval -> M A) (g : gen) (fuel : nat)
  (acc : A) (w : world) :
  (gen_bound g <= fuel)%nat ->
  for_gen_fuel fuel g body acc w = for_gen g body acc w.
Proof.
  unfold for_gen. destruct g as [n|k|]; intros Hle.
  - change (gen_bound (GenCreated n)) with (S (Z.to_nat n)) in *.
    rewrite !for_gen_fuel_created, !for_gen_fuel_suspended by lia. reflexivity.
  - change (gen_bound (GenSuspended k)) with (S k) in *.
    rewrite !for_gen_fuel_suspended by lia. reflexivity.
  - change (gen_bound GenFinished) with 1%nat in *.
    destruct fuel; [lia | reflexivity].
Qed.

Lemma for_gen_generator_next {A} (body : A -> pyval -> M A) (n : Z) (acc : A)
  (w : world) :
  for_gen (generator_next n) body acc w
  = for_range (Z.to_nat n) (fun a => bind next_num (body a)) acc w.
Proof.
  unfold for_gen, generator_next.
  change (gen_bound (GenCreated n)) with (S (Z.to_nat n)).
  rewrite for_gen_fuel_created. apply for_gen_fuel_suspended. lia.
Qed.

Lemma generator_body_eq (str_other : pyval -> string) (n : Z) (w : world) :
  generator_body str_other n w = generator_ str_other n w.
Proof.
  unfold generator_body, generator_, bind at 1 3.
  destruct (get_elements w) as [[els|e] w1]; [|reflexivity].
  unfold bind at 1 2.
  destruct (lift (py_iter els) w1) as [[items|e] w2]; [|reflexivity].
  apply for_gen_generator_next.
Qed.

(** [generator] prints its trace line and then does what [generator_] does. *)
Lemma generator_eq (str_other : pyval -> string) (n : Z) (w : world) :
  generator str_other n w
  = (fst (generator_ str_other n w),
     with_out (w_out w ++ [debug_line]) (snd (generator_ str_other n w))).
Proof.
  unfold generator, debug, bind, print.
  rewrite generator_body_eq.
  apply (silent_generator_ str_other n w (w_out w ++ [debug_line])).
Qed.

(** ** The histogram before and during sampling *)

Lemma dict_of_pairs_keys {V} (pairs : list (string * V)) :
  forall (d : dict V) (k : string),
    In k (dict_keys (fold_left (fun d kv => dict_set (fst kv) (snd kv) d) pairs d))
    <-> In k (map fst pairs) \/ In k (dict_keys d).
Proof.
  induction pairs as [|[k0 v0] pairs IH]; intros d k; simpl.
  - tauto.
  - rewrite IH, dict_keys_set_In. intuition congruence.
Qed.

Lemma dict_of_pairs_NoDup {V} (pairs : list (string * V)) :
  forall d : dict V,
    NoDup (dict_keys d) ->
    NoDup (dict_keys (fold_left (fun d kv => dict_set (fst kv) (snd kv) d) pairs d)).
Proof.
  induction pairs as [|[k0 v0] pairs IH]; intros d ND; simpl; [assumption|].
  apply IH, dict_keys_set_NoDup, ND.
Qed.

Lemma dict_of_pairs_values {V} (P : V -> Prop) (pairs : list (string * V)) :
  Forall P (map snd pairs) ->
  forall d : dict V,
    Forall P (dict_values d) ->
    Forall P (dict_values
                (fold_left (fun d kv => dict_set (fst kv) (snd kv) d) pairs d)).
Proof.
  induction pairs as [|[k0 v0] pairs IH]; intros F d Fd; simpl; [assumption|].
  simpl in F. inversion F; subst.
  apply IH; [assumption|]. apply dict_values_set_Forall; assumption.
Qed.

Lemma zero_counts_keys (keys : list string) (k : string) :
  In k (dict_keys (zero_counts keys)) <-> In k keys.
Proof.
  unfold zero_counts, dict_of_pairs. rewrite dict_of_pairs_keys.
  rewrite map_fst_combine_eq by now rewrite length_map.
  simpl. tauto.
Qed.

Lemma zero_counts_NoDup (keys : list string) :
  NoDup (dict_keys (zero_counts keys)).
Proof. apply dict_of_pairs_NoDup. constructor. Qed.

Lemma zero_counts_values (keys : list string) :
  Forall (fun c => c = 0) (dict_values (zero_counts keys)).
Proof.
  apply dict_of_pairs_values; [|constructor].
  rewrite map_snd_combine_eq by now rewrite length_map.
  apply Forall_forall. intros c Hc. apply in_map_iff in Hc.
  now destruct Hc as (_ & <- & _).
Qed.

Lemma zero_counts_get (keys : list string) (k : string) :
  In k keys -> dict_get k (zero_counts keys) = Some 0.
Proof.
  intros Hin. apply zero_counts_keys in Hin.
  destruct (dict_get_In_keys _ _ Hin) as [v Hv]. rewrite Hv. f_equal.
  apply dict_get_In_values in Hv.
  exact (proj1 (Forall_forall _ _) (zero_counts_values keys) v Hv).
Qed.

Lemma total_zero (d : dict Z) :
  Forall (fun c => c = 0) (dict_values d) -> total d = 0.
Proof.
  unfold total. induction (dict_values d) as [|c l IH]; simpl; intros F;
    [reflexivity|].
  inversion F; subst. rewrite IH by assumption. reflexivity.
Qed.

Lemma after_draws_succ (k : nat) (w : world) :
  after_draws k (after_draws 1 w) = after_draws (S k) w.
Proof. unfold after_draws. simpl. f_equal. lia. Qed.

Lemma after_draws_zero (w : world) : after_draws 0 w = w.
Proof. apply world_eta. Qed.

(** The sampling loop of [generator_] on an instance every draw of which
    succeeds with one of [outcomes]: after [k] rounds the keys are those it
    started with, the counts went up by [k] in total and stayed
    non-negative, and [k] random values were consumed. *)
Lemma sampling_loop (str_other : pyval -> string) (outcomes probs : list pyval)
  (s : pyval) :
  List.length outcomes = List.length probs ->
  py_sum_from (VInt 0) probs = Ok s ->
  probs <> [] ->
  forall (k : nat) (h : dict Z) (w : world),
    w_self w = instance_dict outcomes probs ->
    (forall x, In x outcomes -> In (py_str str_other x) (dict_keys h)) ->
    Forall (fun c => 0 <= c) (dict_values h) ->
    exists h',
      for_range k
        (fun dict_ => bind next_num
                        (fun output => dict_incr (py_str str_other output) dict_))
        h w
      = (Ok h', after_draws k w)
      /\ dict_keys h' = dict_keys h
      /\ Forall (fun c => 0 <= c) (dict_values h')
      /\ total h' = total h + Z.of_nat k.
Proof.
  intros Hlen Hsum Hne.
  induction k as [|k IH]; intros h w Hself Hkeys Hpos.
  - exists h. simpl. unfold ret. rewrite after_draws_zero.
    repeat split; auto. lia.
  - destruct (next_num_instance outcomes probs s w Hself Hlen Hsum Hne)
      as (x & Hnext & Hsel).
    apply selected_In in Hsel.
    destruct (dict_get_In_keys _ _ (Hkeys x Hsel)) as [c Hc].
    assert (Hc0 : 0 <= c).
    { exact (proj1 (Forall_forall _ _) Hpos c (dict_get_In_values _ _ _ Hc)). }
    destruct (IH (dict_set (py_str str_other x) (c + 1) h) (after_draws 1 w))
      as (h' & Hrun & Hk & Hp & Ht).
    + exact Hself.
    + intros y Hy. rewrite (dict_keys_set_present _ _ _ _ Hc). auto.
    + apply dict_values_set_Forall; [lia | assumption].
    + exists h'. split; [|split; [|split]].
      * simpl. unfold bind at 1 2. rewrite Hnext.
        unfold dict_incr at 1. rewrite Hc. unfold ret at 1.
        rewrite <- (after_draws_succ k). exact Hrun.
      * rewrite Hk. apply (dict_keys_set_present _ _ _ _ Hc).
      * exact Hp.
      * rewrite Ht, (total_set_present _ _ _ _ Hc). lia.
Qed.

Lemma get_elements_instance (outcomes probs : list pyval) (w : world) :
  w_self w = instance_dict outcomes probs ->
  get_elements w = (Ok (VList outcomes), w).
Proof.
  intros H. unfold get_elements, getattr. simpl. unfold Descriptor__get, load.
  simpl. rewrite H. reflexivity.
Qed.

(** [generator_] on such an instance. *)
Lemma generator__instance (str_other : pyval -> string)
  (outcomes probs : list pyval) (s : pyval) (n : Z) (w : world) :
  w_self w = instance_dict outcomes probs ->
  List.length outcomes = List.length probs ->
  py_sum_from (VInt 0) probs = Ok s ->
  probs <> [] ->
  exists h,
    generator_ str_other n w = (Ok h, after_draws (Z.to_nat n) w)
    /\ dict_keys h = dict_keys (zero_counts (map (py_str str_other) outcomes))
    /\ Forall (fun c => 0 <= c) (dict_values h)
    /\ total h = Z.of_nat (Z.to_nat n).
Proof.
  intros Hself Hlen Hsum Hne.
  destruct (sampling_loop str_other outcomes probs s Hlen Hsum Hne (Z.to_nat n)
              (zero_counts (map (py_str str_other) outcomes)) w Hself)
    as (h & Hrun & Hk & Hp & Ht).
  - intros x Hx. apply zero_counts_keys, in_map, Hx.
  - eapply Forall_impl; [|apply zero_counts_values]. simpl. intros c ->. lia.
  - exists h. split; [|split; [|split]]; auto.
    + unfold generator_, bind at 1 2.
      rewrite (get_elements_instance _ _ _ Hself). exact Hrun.
    + rewrite Ht, total_zero by apply zero_counts_values. lia.
Qed.

(** ** Which exceptions arithmetic raises *)

Lemma float_of_int_arithmetic (z : Z) (e : exn) :
  float_of_int z = Err e -> arithmetic_error e.
Proof. intros H. right. apply float_of_int_Err in H. eauto. Qed.

Ltac arithmetic_cases :=
  repeat match goal with
         | H : rbind (float_of_int ?z) _ = Err _ |- _ =>
             let E := fresh "E" in
             destruct (float_of_int z) eqn:E; cbn -[float_of_int] in H
         end;
  match goal with
  | H : Ok _ = Err _ |- _ => discriminate H
  | H : Err _ = Err _ |- _ =>
      injection H as <-;
      first [ left; eexists; reflexivity
            | eauto using float_of_int_arithmetic ]
  end.

Lemma py_add_arithmetic (a b : pyval) (e : exn) :
  py_add a b = Err e -> arithmetic_error e.
Proof.
  intros H.
  destruct a; destruct b;
    cbn -[float_of_int] in H; unfold unsupported, cannot_concat in H;
    arithmetic_cases.
Qed.

Lemma py_sub_arithmetic (a b : pyval) (e : exn) :
  py_sub a b = Err e -> arithmetic_error e.
Proof.
  intros H.
  destruct a; destruct b;
    cbn -[float_of_int] in H; unfold unsupported in H; arithmetic_cases.
Qed.

Lemma py_sum_from_arithmetic (l : list pyval) :
  forall (acc : pyval) (e : exn),
    py_sum_from acc l = Err e -> arithmetic_error e.
Proof.
  induction l as [|x l IH]; intros acc e; simpl; [discriminate|].
  destruct (py_add acc x) as [acc'|e'] eqn:E; simpl.
  - apply IH.
  - intros [= <-]. eapply py_add_arithmetic, E.
Qed.

Lemma within_epsilon_arithmetic (s : pyval) (e : exn) :
  within_epsilon s = Err e -> arithmetic_error e.
Proof.
  unfold within_epsilon. intros H.
  destruct (py_sub s (VFloat 1.0)) as [d|e'] eqn:E; simpl in H;
    [|injection H as <-; eapply py_sub_arithmetic, E].
  unfold py_abs, py_lt_float in H.
  destruct (to_num d) as [[x|f]|]; simpl in H; try discriminate H.
  injection H as <-. left. eauto.
Qed.

Lemma arithmetic_error_not_ValueError (e : exn) (msg : string) :
  arithmetic_error e -> e <> ValueError msg.
Proof. intros [[m ->]|[m ->]]; discriminate. Qed.

(** A sum that succeeds from a number added only numbers. *)
Lemma py_sum_from_Ok_numeric (l : list pyval) :
  forall acc s : pyval,
    is_numeric acc = true -> py_sum_from acc l = Ok s ->
    forallb is_numeric l = true.
Proof.
  induction l as [|x l IH]; intros acc s Hacc H; simpl in *; [reflexivity|].
  apply rbind_Ok_inv in H. destruct H as (acc' & Hadd & H).
  destruct (py_add_numeric _ _ _ Hacc Hadd) as [-> Hacc'].
  simpl. eapply IH; eassumption.
Qed.

(** ... and is a number. *)
Lemma py_sum_from_numeric (l : list pyval) :
  forall acc s : pyval,
    is_numeric acc = true -> py_sum_from acc l = Ok s -> is_numeric s = true.
Proof.
  induction l as [|x l IH]; intros acc s Hacc H; simpl in H; [congruence|].
  apply rbind_Ok_inv in H. destruct H as (acc' & Hadd & H).
  destruct (py_add_numeric _ _ _ Hacc Hadd) as [_ Hacc'].
  exact (IH acc' s Hacc' H).
Qed.

(** ** The properties of the specification *)

(** C1.  On a Distribution that [RV] built from outcomes and probabilities of
    equal length, every draw succeeds, consumes one value [r] of the random
    source and returns the first outcome, in the order supplied, whose
    running cumulative sum satisfies [cdf >= r] once its probability is
    added; if no outcome satisfies it, the draw returns the last outcome.
    With outcomes [[5]] and probabilities [[1.0]] every draw returns [5],
    whatever the random source yields. *)
Theorem next_num_selects_first_reached :
  (forall (outcomes probabilities : list pyval) (w0 w w' : world),
      RV (VList outcomes) (VList probabilities) w0 = (Ok tt, w) ->
      List.length outcomes = List.length probabilities ->
      w_self w' = w_self w ->
      exists x,
        next_num w' = (Ok x, after_draws 1 w')
        /\ (first_reached (w_draws w' (w_drawn w')) outcomes probabilities x
            \/ none_reached_last (w_draws w' (w_drawn w')) outcomes
                 probabilities x))
  /\ (forall w0 : world,
        exists w,
          RV (VList [VInt 5]) (VList [VFloat 1.0]) w0 = (Ok tt, w)
          /\ forall w', w_self w' = w_self w ->
                        next_num w' = (Ok (VInt 5), after_draws 1 w')).
Proof.
  assert (General :
    forall (outcomes probabilities : list pyval) (w0 w w' : world),
      RV (VList outcomes) (VList probabilities) w0 = (Ok tt, w) ->
      List.length outcomes = List.length probabilities ->
      w_self w' = w_self w ->
      exists x,
        next_num w' = (Ok x, after_draws 1 w')
        /\ (first_reached (w_draws w' (w_drawn w')) outcomes probabilities x
            \/ none_reached_last (w_draws w' (w_drawn w')) outcomes
                 probabilities x)).
  { intros outcomes probabilities w0 w w' HRV Hlen Hself.
    apply RV_Ok_inv in HRV.
    destruct HRV as (o & p & s & [= <-] & [= <-] & _ & Hsum & Heps & ->).
    simpl in Hself.
    apply (next_num_instance outcomes probabilities s w' Hself Hlen Hsum).
    exact (within_epsilon_nonempty _ _ Hsum Heps). }
  split; [exact General|].
  intros w0.
  exists (mkWorld (instance_dict [VInt 5] [VFloat 1.0]) (w_draws w0) (w_drawn w0)
                  (w_out w0)).
  assert (HRV : RV (VList [VInt 5]) (VList [VFloat 1.0]) w0
                = (Ok tt, mkWorld (instance_dict [VInt 5] [VFloat 1.0])
                                  (w_draws w0) (w_drawn w0) (w_out w0))).
  { apply (RV_Ok_intro [VInt 5] [VFloat 1.0] (VFloat 1.0)); reflexivity. }
  split; [exact HRV|].
  intros w' Hself.
  destruct (General _ _ _ _ w' HRV eq_refl Hself) as (x & Hnext & Hsel).
  apply selected_In in Hsel. destruct Hsel as [<-|[]]. exact Hnext.
Qed.

Lemma next_num_selects_first_reached_witness :
  (RV (VList [VInt 1; VInt 2]) (VList [VFloat 0.5; VFloat 0.5]) world0
   = (Ok tt, mkWorld (instance_dict [VInt 1; VInt 2] [VFloat 0.5; VFloat 0.5])
                     (w_draws world0) 0 [])
   /\ List.length [VInt 1; VInt 2] = List.length [VFloat 0.5; VFloat 0.5])
  /\ exists x,
      next_num (mkWorld (instance_dict [VInt 1; VInt 2] [VFloat 0.5; VFloat 0.5])
                        (w_draws world0) 0 [])
      = (Ok x, after_draws 1
                 (mkWorld (instance_dict [VInt 1; VInt 2] [VFloat 0.5; VFloat 0.5])
                          (w_draws world0) 0 []))
      /\ (first_reached 0.3 [VInt 1; VInt 2] [VFloat 0.5; VFloat 0.5] x
          \/ none_reached_last 0.3 [VInt 1; VInt 2] [VFloat 0.5; VFloat 0.5] x).
Proof.
  split; [split; reflexivity|].
  exact (proj1 next_num_selects_first_reached
           [VInt 1; VInt 2] [VFloat 0.5; VFloat 0.5] world0 _ _
           eq_refl eq_refl eq_refl).
Defined.

(** C2.  Assigning a list to [probabilities] succeeds exactly when
    [abs(sum(probabilities) - 1.0) < 1e-4] evaluates to true, and so does the
    construction of an [RV] on integer outcomes.  A list whose sum is the
    float 1.0001 is accepted (in binary64, [1.0001 - 1.0] is just below
    [0.0001]); one whose sum is the float 1.00011 is rejected with the
    [ValueError] of the epsilon test (the ProbabilityError kind). *)
Theorem probabilities_accepted_iff_within_epsilon :
  forall (probabilities : list pyval) (w : world),
    ((exists w', setattr "probabilities" (VList probabilities) w = (Ok tt, w'))
     <-> sum_within_epsilon (VList probabilities) = Ok true)
    /\ (forall outcomes : list pyval,
           forallb is_int outcomes = true ->
           ((exists w', RV (VList outcomes) (VList probabilities) w = (Ok tt, w'))
            <-> sum_within_epsilon (VList probabilities) = Ok true))
    /\ (py_sum (VList probabilities) = Ok (VFloat 1.0001) ->
        setattr "probabilities" (VList probabilities) w
        = (Ok tt, mkWorld (dict_set "probabilities" (VList probabilities) (w_self w))
                          (w_draws w) (w_drawn w) (w_out w)))
    /\ (py_sum (VList probabilities) = Ok (VFloat 1.00011) ->
        exists e,
          setattr "probabilities" (VList probabilities) w = (Err e, w)
          /\ ProbabilityError e).
Proof.
  intros probabilities w.
  assert (Iff : forall w1,
    (exists w', setattr "probabilities" (VList probabilities) w1 = (Ok tt, w'))
    <-> sum_within_epsilon (VList probabilities) = Ok true).
  { intros w1. unfold sum_within_epsilon, py_sum. simpl py_iter. simpl rbind at 1.
    rewrite setattr_probabilities_list. split.
    - intros [w' H].
      destruct (py_sum_from (VInt 0) probabilities) as [s|e]; simpl.
      + destruct (within_epsilon s) as [[|]|e]; [reflexivity | discriminate..].
      + destruct e; discriminate.
    - destruct (py_sum_from (VInt 0) probabilities) as [s|e]; simpl;
        [|discriminate].
      intros ->. unfold store. eauto. }
  split; [apply Iff|]. split; [|split].
  - intros outcomes Hint. rewrite <- (Iff w). split.
    + intros [w' H]. apply RV_Ok_inv in H.
      destruct H as (o & p & s & _ & [= <-] & _ & Hsum & Heps & _).
      rewrite setattr_probabilities_list, Hsum, Heps. unfold store. eauto.
    + intros [w' H]. apply setattr_probabilities_Ok in H.
      destruct H as (l & s & [= <-] & Hsum & Heps & _).
      rewrite (RV_Ok_intro outcomes probabilities s w Hint Hsum Heps). eauto.
  - unfold py_sum. simpl. intros Hsum.
    rewrite setattr_probabilities_list, Hsum. reflexivity.
  - unfold py_sum. simpl. intros Hsum.
    rewrite setattr_probabilities_list, Hsum.
    eexists. split; reflexivity.
Qed.

Lemma probabilities_accepted_iff_within_epsilon_witness :
  py_sum (VList [VFloat 1.0001]) = Ok (VFloat 1.0001)
  /\ setattr "probabilities" (VList [VFloat 1.0001]) world0
     = (Ok tt, mkWorld (dict_set "probabilities" (VList [VFloat 1.0001])
                                 (w_self world0))
                       (w_draws world0) (w_drawn world0) (w_out world0)).
Proof.
  split; [reflexivity|].
  exact (proj1 (proj2 (proj2 (probabilities_accepted_iff_within_epsilon
                                [VFloat 1.0001] world0))) eq_refl).
Defined.

(** C3, as stated, fails: on outcomes [[1, 2]] and probabilities [[0.5]] the
    construction fails with the [ValueError] of the epsilon test, which is
    not the shape error, and on probabilities [[1.0]] it succeeds. *)
Lemma construction_does_not_check_lengths :
  fst (RV (VList [VInt 1; VInt 2]) (VList [VFloat 0.5]) world0)
  = Err (ValueError "Must be within Epsilon of 1.0.")
  /\ ~ ShapeMismatch (ValueError "Must be within Epsilon of 1.0.")
  /\ RV (VList [VInt 1; VInt 2]) (VList [VFloat 1.0]) world0
     = (Ok tt, mkWorld (instance_dict [VInt 1; VInt 2] [VFloat 1.0])
                       (w_draws world0) 0 []).
Proof.
  split; [reflexivity|]. split; [|reflexivity].
  unfold ShapeMismatch. discriminate.
Qed.

(** C3, amended.  No construction fails with the shape error.  A
    construction on sequences of different lengths that passes the two field
    validations succeeds, and the shape error is raised by the first pairing
    of outcomes with probabilities ([list_tuple], hence the first draw),
    before a random value is consumed. *)
Theorem shape_mismatch_raised_at_first_use :
  forall (elements probabilities : pyval) (w0 : world),
    (forall e w, RV elements probabilities w0 = (Err e, w) -> ~ ShapeMismatch e)
    /\ (forall outcomes probs,
           elements = VList outcomes -> probabilities = VList probs ->
           forallb is_int outcomes = true ->
           sum_within_epsilon probabilities = Ok true ->
           exists w, RV elements probabilities w0 = (Ok tt, w))
    /\ (forall w,
           RV elements probabilities w0 = (Ok tt, w) ->
           py_len elements <> py_len probabilities ->
           (exists e, list_tuple w = (Err e, w) /\ ShapeMismatch e)
           /\ (exists e, next_num w = (Err e, w) /\ ShapeMismatch e)).
Proof.
  intros elements probabilities w0. split; [|split].
  2:{ intros outcomes probs -> -> Hint Heps.
      unfold sum_within_epsilon, py_sum in Heps. simpl py_iter in Heps.
      apply rbind_Ok_inv in Heps. destruct Heps as (s & Hsum & Heps).
      rewrite (RV_Ok_intro outcomes probs s w0 Hint Hsum Heps). eauto. }
  - intros e w H. unfold ShapeMismatch.
    unfold RV, __init__, bind at 1 2 in H. cbn [w_self w_draws w_drawn w_out] in H.
    destruct elements as [| | | | |outcomes];
      try (rewrite setattr_elements_not_list in H by reflexivity;
           injection H as <- _; discriminate).
    rewrite setattr_elements_list in H.
    destruct (forallb _ outcomes); [|injection H as <- _; discriminate].
    unfold store at 1, bind at 1 in H.
    destruct probabilities as [| | | | |probs];
      try (rewrite setattr_probabilities_not_list in H by reflexivity;
           injection H as <- _; discriminate).
    rewrite setattr_probabilities_list in H.
    destruct (py_sum_from (VInt 0) probs) as [s|e'] eqn:Es.
    + destruct (within_epsilon s) as [[|]|e'] eqn:Ee.
      * discriminate H.
      * injection H as <- _. discriminate.
      * injection H as <- _.
        apply arithmetic_error_not_ValueError, (within_epsilon_arithmetic _ _ Ee).
    + apply py_sum_from_arithmetic in Es.
      assert (e = e') as ->.
      { destruct e'; injection H as <- _; reflexivity. }
      now apply arithmetic_error_not_ValueError.
  - intros w H Hlen. apply RV_Ok_inv in H.
    destruct H as (outcomes & probs & s & -> & -> & _ & _ & _ & ->).
    assert (Hlt : list_tuple
                    (mkWorld (instance_dict outcomes probs) (w_draws w0)
                             (w_drawn w0) (w_out w0))
                  = (Err (ValueError "Expecting to map each element to a probability."),
                     mkWorld (instance_dict outcomes probs) (w_draws w0)
                             (w_drawn w0) (w_out w0))).
    { rewrite (list_tuple_instance outcomes probs) by reflexivity.
      destruct (Z.eqb_spec (Z.of_nat (List.length outcomes))
                           (Z.of_nat (List.length probs))) as [E|E];
        [|reflexivity].
      simpl in Hlen. congruence. }
    split; eexists; (split; [|reflexivity]).
    + exact Hlt.
    + unfold next_num, bind. now rewrite Hlt.
Qed.

Lemma shape_mismatch_raised_at_first_use_witness :
  (RV (VList [VInt 1; VInt 2]) (VList [VFloat 1.0]) world0
   = (Ok tt, mkWorld (instance_dict [VInt 1; VInt 2] [VFloat 1.0])
                     (w_draws world0) 0 [])
   /\ py_len (VList [VInt 1; VInt 2]) <> py_len (VList [VFloat 1.0]))
  /\ (exists e,
         list_tuple (mkWorld (instance_dict [VInt 1; VInt 2] [VFloat 1.0])
                             (w_draws world0) 0 [])
         = (Err e, mkWorld (instance_dict [VInt 1; VInt 2] [VFloat 1.0])
                           (w_draws world0) 0 [])
         /\ ShapeMismatch e)
  /\ (exists e,
         next_num (mkWorld (instance_dict [VInt 1; VInt 2] [VFloat 1.0])
                           (w_draws world0) 0 [])
         = (Err e, mkWorld (instance_dict [VInt 1; VInt 2] [VFloat 1.0])
                           (w_draws world0) 0 [])
         /\ ShapeMismatch e).
Proof.
  assert (Hlen : py_len (VList [VInt 1; VInt 2]) <> py_len (VList [VFloat 1.0]))
    by (simpl; discriminate).
  split; [split; [reflexivity | exact Hlen]|].
  exact (proj2 (proj2 (shape_mismatch_raised_at_first_use
                         (VList [VInt 1; VInt 2]) (VList [VFloat 1.0]) world0))
               _ eq_refl Hlen).
Defined.

(** C6 fails on the code: [list_tuple] compares the lengths that [__init__]
    recorded, not the lengths of the current fields.  After [elements] of a
    valid instance is reassigned to a longer list, pairing succeeds and drops
    the extra outcome; every draw succeeds as well. *)
Theorem stale_lengths_truncate :
  fst ((RV (VList [VInt 1; VInt 2]) (VList [VFloat 0.5; VFloat 0.5]) ;;
        setattr "elements" (VList [VInt 1; VInt 2; VInt 3]) ;;
        elements <- getattr "elements" ;;
        pairs <- list_tuple ;;
        x <- next_num ;;
        ret (elements, pairs, x)) world0)
  = Ok (VList [VInt 1; VInt 2; VInt 3],
        [(VInt 1, VFloat 0.5); (VInt 2, VFloat 0.5)],
        VInt 1).
Proof. reflexivity. Qed.

(** C7, as stated, fails: with a string among the probabilities the
    assignment raises the [TypeError] of the addition, which is not the
    [ValueError] that a sum outside epsilon raises. *)
Lemma non_numeric_probability_raises_TypeError :
  setattr "probabilities" (VList [VFloat 0.5; VStr "a"]) world0
  = (Err (TypeError "unsupported operand type(s) for +: 'float' and 'str'"),
     with_out
       ["Probabilities required: unsupported operand type(s) for +: 'float' and 'str'."%string]
       world0)
  /\ ~ ProbabilityError
       (TypeError "unsupported operand type(s) for +: 'float' and 'str'")
  /\ (exists e,
         setattr "probabilities" (VList [VFloat 0.5]) world0 = (Err e, world0)
         /\ ProbabilityError e).
Proof.
  split; [reflexivity|]. split.
  - unfold ProbabilityError. discriminate.
  - eexists. split; reflexivity.
Qed.

(** C7, amended.  Assigning a list with a non-numeric entry fails and stores
    nothing, and the error is never the ProbabilityError kind: when the
    summation reaches the entry (the sum [s] of the entries before it
    exists), its [TypeError] is caught, logged on standard output and
    re-raised unchanged; otherwise an earlier addition already failed, with
    a [TypeError] that is logged and re-raised in the same way or with an
    [OverflowError] that is not caught. *)
Theorem non_numeric_probabilities_rejected :
  forall (probabilities : list pyval) (w : world),
    (exists x, In x probabilities /\ is_numeric x = false) ->
    (exists e w',
        setattr "probabilities" (VList probabilities) w = (Err e, w')
        /\ w_self w' = w_self w
        /\ ~ ProbabilityError e
        /\ ((exists msg,
                e = TypeError msg
                /\ w' = with_out (w_out w ++ [("Probabilities required: "
                                               ++ msg ++ ".")%string]) w)
            \/ (exists msg, e = OverflowError msg /\ w' = w)))
    /\ (forall pre x post s,
           probabilities = (pre ++ x :: post)%list ->
           py_sum_from (VInt 0) pre = Ok s ->
           is_numeric x = false ->
           setattr "probabilities" (VList probabilities) w
           = (Err (unsupported "+" s x),
              with_out (w_out w ++ [("Probabilities required: "
                                     ++ unsupported_msg "+" s x ++ ".")%string])
                       w)).
Proof.
  intros probabilities w (x & Hin & Hx). split.
  - rewrite setattr_probabilities_list.
    destruct (py_sum_from (VInt 0) probabilities) as [s|e] eqn:Es.
    + apply py_sum_from_Ok_numeric in Es; [|reflexivity].
      rewrite forallb_forall in Es. rewrite (Es x Hin) in Hx. discriminate.
    + destruct (py_sum_from_arithmetic _ _ _ Es) as [[msg ->]|[msg ->]].
      * exists (TypeError msg). eexists. split; [reflexivity|].
        split; [reflexivity|]. split; [unfold ProbabilityError; discriminate|].
        left. eauto.
      * exists (OverflowError msg), w. split; [reflexivity|].
        split; [reflexivity|]. split; [unfold ProbabilityError; discriminate|].
        right. eauto.
  - intros pre y post s -> Hpre Hy.
    rewrite setattr_probabilities_list, py_sum_from_app, Hpre. simpl.
    assert (Hs : is_numeric s = true)
      by exact (py_sum_from_numeric pre (VInt 0) s eq_refl Hpre).
    rewrite (py_add_non_numeric s y Hs Hy). reflexivity.
Qed.

Lemma non_numeric_probabilities_rejected_witness :
  (exists x, In x [VFloat 0.5; VStr "a"] /\ is_numeric x = false)
  /\ exists e w',
      setattr "probabilities" (VList [VFloat 0.5; VStr "a"]) world0 = (Err e, w')
      /\ w_self w' = w_self world0
      /\ ~ ProbabilityError e
      /\ ((exists msg,
              e = TypeError msg
              /\ w' = with_out (w_out world0 ++ [("Probabilities required: "
                                                  ++ msg ++ ".")%string]) world0)
          \/ (exists msg, e = OverflowError msg /\ w' = world0)).
Proof.
  assert (H : exists x, In x [VFloat 0.5; VStr "a"] /\ is_numeric x = false).
  { exists (VStr "a"). split; [simpl; auto | reflexivity]. }
  split; [exact H|].
  exact (proj1 (non_numeric_probabilities_rejected
                  [VFloat 0.5; VStr "a"] world0 H)).
Defined.

(** C8.  Assigning to [elements] a list with an element that is not an int
    raises the [TypeError] of [_Integers] (the TypeMismatch kind) and leaves
    the instance, the random source and standard output as they were: the
    value is not stored.  A construction on such outcomes fails with the same
    error on an instance that holds no field.  The list [[1, 2.5]] is such a
    list. *)
Theorem non_integer_outcome_rejected :
  forall (outcomes : list pyval) (w : world),
    (exists x, In x outcomes /\ is_int x = false) ->
    (exists e,
        setattr "elements" (VList outcomes) w = (Err e, w)
        /\ e = TypeError "The List passed must consist of all Integer Values."
        /\ TypeMismatch e)
    /\ (forall probabilities,
           exists e w',
             RV (VList outcomes) probabilities w = (Err e, w')
             /\ TypeMismatch e /\ w_self w' = [])
    /\ is_int (VFloat 2.5) = false.
Proof.
  intros outcomes w (x & Hin & Hx).
  assert (Hall : forallb (fun arg => isinstance arg Tint) outcomes = false).
  { destruct (forallb _ outcomes) eqn:E; [|reflexivity].
    rewrite forallb_forall in E. unfold is_int in Hx.
    rewrite (E x Hin) in Hx. discriminate. }
  split; [|split; [|reflexivity]].
  - eexists. split; [|split; [reflexivity | eexists; reflexivity]].
    rewrite setattr_elements_list, Hall. reflexivity.
  - intros probabilities. do 2 eexists.
    split; [|split; [eexists; reflexivity|]].
    + unfold RV, bind at 1, __init__, bind at 1.
      rewrite setattr_elements_list, Hall. reflexivity.
    + reflexivity.
Qed.

Lemma non_integer_outcome_rejected_witness :
  (exists x, In x [VInt 1; VFloat 2.5] /\ is_int x = false)
  /\ exists e,
      setattr "elements" (VList [VInt 1; VFloat 2.5]) world0 = (Err e, world0)
      /\ e = TypeError "The List passed must consist of all Integer Values."
      /\ TypeMismatch e.
Proof.
  assert (H : exists x, In x [VInt 1; VFloat 2.5] /\ is_int x = false).
  { exists (VFloat 2.5). split; [simpl; auto | reflexivity]. }
  split; [exact H|].
  exact (proj1 (non_integer_outcome_rejected [VInt 1; VFloat 2.5] world0 H)).
Defined.

(** C9.  On a Distribution that [RV] built, assigning again the outcomes and
    the probabilities it was built from, or running [__init__] again on
    them, raises nothing and leaves the instance, the random source and
    standard output exactly as they were. *)
Theorem revalidation_is_idempotent :
  forall (elements probabilities : pyval) (w0 w : world),
    RV elements probabilities w0 = (Ok tt, w) ->
    setattr "elements" elements w = (Ok tt, w)
    /\ setattr "probabilities" probabilities w = (Ok tt, w)
    /\ __init__ elements probabilities w = (Ok tt, w).
Proof.
  intros elements probabilities w0 w H. apply RV_Ok_inv in H.
  destruct H as (outcomes & probs & s & -> & -> & Hint & Hsum & Heps & ->).
  assert (He : setattr "elements" (VList outcomes)
                 (mkWorld (instance_dict outcomes probs) (w_draws w0)
                          (w_drawn w0) (w_out w0))
               = (Ok tt, mkWorld (instance_dict outcomes probs) (w_draws w0)
                                 (w_drawn w0) (w_out w0))).
  { rewrite setattr_elements_list, Hint. reflexivity. }
  assert (Hp : setattr "probabilities" (VList probs)
                 (mkWorld (instance_dict outcomes probs) (w_draws w0)
                          (w_drawn w0) (w_out w0))
               = (Ok tt, mkWorld (instance_dict outcomes probs) (w_draws w0)
                                 (w_drawn w0) (w_out w0))).
  { rewrite setattr_probabilities_list, Hsum, Heps. reflexivity. }
  split; [exact He|]. split; [exact Hp|].
  unfold __init__, bind at 1. rewrite He.
  unfold bind at 1. rewrite Hp. reflexivity.
Qed.

Lemma revalidation_is_idempotent_witness :
  RV (VList [VInt 5]) (VList [VFloat 1.0]) world0
  = (Ok tt, mkWorld (instance_dict [VInt 5] [VFloat 1.0]) (w_draws world0) 0 [])
  /\ setattr "elements" (VList [VInt 5])
       (mkWorld (instance_dict [VInt 5] [VFloat 1.0]) (w_draws world0) 0 [])
     = (Ok tt, mkWorld (instance_dict [VInt 5] [VFloat 1.0]) (w_draws world0) 0 [])
  /\ setattr "probabilities" (VList [VFloat 1.0])
       (mkWorld (instance_dict [VInt 5] [VFloat 1.0]) (w_draws world0) 0 [])
     = (Ok tt, mkWorld (instance_dict [VInt 5] [VFloat 1.0]) (w_draws world0) 0 [])
  /\ __init__ (VList [VInt 5]) (VList [VFloat 1.0])
       (mkWorld (instance_dict [VInt 5] [VFloat 1.0]) (w_draws world0) 0 [])
     = (Ok tt, mkWorld (instance_dict [VInt 5] [VFloat 1.0]) (w_draws world0) 0 []).
Proof.
  split; [reflexivity|].
  exact (revalidation_is_idempotent (VList [VInt 5]) (VList [VFloat 1.0])
           world0 _ eq_refl).
Defined.

(** C10.  The element test of [_Integers] holds for booleans, so every list of
    booleans is accepted as outcomes; the construction on [[True, False]]
    with probabilities [[0.5, 0.5]] succeeds and its first draw, for the
    random value 0.3, returns the boolean [True]. *)
Theorem boolean_outcomes_accepted :
  (forall b, is_int (VBool b) = true)
  /\ (forall (bs : list bool) (w : world),
         setattr "elements" (VList (map VBool bs)) w
         = (Ok tt, mkWorld (dict_set "elements" (VList (map VBool bs)) (w_self w))
                           (w_draws w) (w_drawn w) (w_out w)))
  /\ (RV (VList [VBool true; VBool false]) (VList [VFloat 0.5; VFloat 0.5]) ;;
      next_num) world0
     = (Ok (VBool true),
        mkWorld (instance_dict [VBool true; VBool false] [VFloat 0.5; VFloat 0.5])
                (w_draws world0) 1 []).
Proof.
  split; [reflexivity|]. split; [|reflexivity].
  intros bs w. rewrite setattr_elements_list.
  replace (forallb _ (map VBool bs)) with true; [reflexivity|].
  symmetry. apply forallb_forall. intros x Hx. apply in_map_iff in Hx.
  now destruct Hx as (b & <- & _).
Qed.

(** C4.  On a Distribution that [RV] built from outcomes and probabilities of
    equal length, the outcomes being ints that [str] converts (numerals
    within the interpreter's limit), and for every [n >= 0], [generator_]
    and [generator] each return a histogram with one counter per stringified
    outcome and no other key, whose counts are not negative and add up to
    [n]; each consumes [n] random values.  The histogram before sampling
    (what [n = 0] returns) holds [0] under every key. *)
Theorem histograms_count_every_draw :
  forall (str_other : pyval -> string) (outcomes probabilities : list pyval)
         (w0 w : world) (n : Z),
    RV (VList outcomes) (VList probabilities) w0 = (Ok tt, w) ->
    List.length outcomes = List.length probabilities ->
    forallb within_str_limit outcomes = true ->
    0 <= n ->
    let keys := map (py_str str_other) outcomes in
    (exists h_batch h_lazy,
        generator_ str_other n w = (Ok h_batch, after_draws (Z.to_nat n) w)
        /\ generator str_other n w
           = (Ok h_lazy,
              with_out (w_out w ++ [debug_line]) (after_draws (Z.to_nat n) w))
        /\ histogram_of keys n h_batch
        /\ histogram_of keys n h_lazy)
    /\ generator_ str_other 0 w = (Ok (zero_counts keys), w)
    /\ (forall k, In k keys -> dict_get k (zero_counts keys) = Some 0)
    /\ Forall (fun c => c = 0) (dict_values (zero_counts keys)).
Proof.
  intros str_other outcomes probabilities w0 w n HRV Hlen Hstr Hn keys.
  apply RV_Ok_inv in HRV.
  destruct HRV as (o & p & s & [= <-] & [= <-] & _ & Hsum & Heps & Hw).
  assert (Hself : w_self w = instance_dict outcomes probabilities)
    by (rewrite Hw; reflexivity).
  pose proof (within_epsilon_nonempty _ _ Hsum Heps) as Hne.
  split; [|split; [|split]].
  - destruct (generator__instance str_other outcomes probabilities s n w
                Hself Hlen Hsum Hne) as (h & Hrun & Hk & Hp & Ht).
    assert (Hh : histogram_of keys n h).
    { unfold histogram_of. rewrite Hk. split; [apply zero_counts_NoDup|].
      split; [apply zero_counts_keys|]. split; [exact Hp|].
      rewrite Ht. apply Z2Nat.id, Hn. }
    exists h, h. split; [exact Hrun|]. split; [|split; exact Hh].
    rewrite generator_eq, Hrun. reflexivity.
  - unfold generator_, bind at 1 2.
    rewrite (get_elements_instance _ _ _ Hself). reflexivity.
  - apply zero_counts_get.
  - apply zero_counts_values.
Qed.

Lemma histograms_count_every_draw_witness :
  (RV (VList [VInt (-1); VInt 0; VInt 1])
      (VList [VFloat 0.25; VFloat 0.25; VFloat 0.5]) world0
   = (Ok tt, mkWorld (instance_dict [VInt (-1); VInt 0; VInt 1]
                                    [VFloat 0.25; VFloat 0.25; VFloat 0.5])
                     (w_draws world0) 0 [])
   /\ List.length [VInt (-1); VInt 0; VInt 1]
      = List.length [VFloat 0.25; VFloat 0.25; VFloat 0.5]
   /\ forallb within_str_limit [VInt (-1); VInt 0; VInt 1] = true
   /\ 0 <= 4)
  /\ exists h_batch h_lazy,
      generator_ (fun _ => EmptyString) 4
        (mkWorld (instance_dict [VInt (-1); VInt 0; VInt 1]
                                [VFloat 0.25; VFloat 0.25; VFloat 0.5])
                 (w_draws world0) 0 [])
      = (Ok h_batch,
         after_draws (Z.to_nat 4)
           (mkWorld (instance_dict [VInt (-1); VInt 0; VInt 1]
                                   [VFloat 0.25; VFloat 0.25; VFloat 0.5])
                    (w_draws world0) 0 []))
      /\ generator (fun _ => EmptyString) 4
           (mkWorld (instance_dict [VInt (-1); VInt 0; VInt 1]
                                   [VFloat 0.25; VFloat 0.25; VFloat 0.5])
                    (w_draws world0) 0 [])
         = (Ok h_lazy,
            with_out
              (w_out (mkWorld (instance_dict [VInt (-1); VInt 0; VInt 1]
                                             [VFloat 0.25; VFloat 0.25; VFloat 0.5])
                              (w_draws world0) 0 []) ++ [debug_line])
              (after_draws (Z.to_nat 4)
                 (mkWorld (instance_dict [VInt (-1); VInt 0; VInt 1]
                                         [VFloat 0.25; VFloat 0.25; VFloat 0.5])
                          (w_draws world0) 0 [])))
      /\ histogram_of ["-1"; "0"; "1"]%string 4 h_batch
      /\ histogram_of ["-1"; "0"; "1"]%string 4 h_lazy.
Proof.
  assert (Hn : 0 <= 4) by lia.
  split; [split; [reflexivity | split; [reflexivity | split;
                                                   [reflexivity | exact Hn]]]|].
  exact (proj1 (histograms_count_every_draw (fun _ => EmptyString)
                  [VInt (-1); VInt 0; VInt 1]
                  [VFloat 0.25; VFloat 0.25; VFloat 0.5]
                  world0 _ 4 eq_refl eq_refl eq_refl Hn)).
Defined.

(** C5.  For every consumer, every [n] and every state of the instance and
    of the random source, driving the generator [generator_next(n)] hands
    the consumer the outcomes that [n] successive calls of [next_num] return,
    in the same order and interleaved with the consumer in the same way.  So
    the sequence the lazy mode yields is the sequence the batch mode draws,
    [generator] returns the histogram (or raises the exception) that
    [generator_] does, and both leave the random source in the same state;
    they differ by the trace line that the decorated [generator] prints. *)
Theorem lazy_mode_agrees_with_batch_mode :
  forall (str_other : pyval -> string) (n : Z) (w : world),
    (forall (A : Type) (body : A -> pyval -> M A) (acc : A),
        for_gen (generator_next n) body acc w
        = for_range (Z.to_nat n) (fun a => output <- next_num ;; body a output)
            acc w)
    /\ lazy_draws n w = batch_draws n w
    /\ fst (generator str_other n w) = fst (generator_ str_other n w)
    /\ w_drawn (snd (generator str_other n w))
       = w_drawn (snd (generator_ str_other n w))
    /\ w_out (snd (generator_ str_other n w)) = w_out w
    /\ w_out (snd (generator str_other n w)) = (w_out w ++ [debug_line])%list.
Proof.
  intros str_other n w.
  split; [intros A body acc; apply for_gen_generator_next|].
  split; [apply (for_gen_generator_next (A := list pyval))|].
  rewrite generator_eq. simpl.
  split; [reflexivity|]. split; [reflexivity|]. split; [|reflexivity].
  pose proof (silent_generator_ str_other n w (w_out w)) as H.
  unfold with_out at 1 in H. rewrite world_eta in H.
  apply (f_equal (fun r => w_out (snd r))) in H. simpl in H. exact H.
Qed.

(** * Further properties of the code *)

(** ** Assignment, lookup and deletion of fields *)

Lemma dict_get_set_same {V} (k : string) (v : V) (d : dict V) :
  dict_get k (dict_set k v d) = Some v.
Proof.
  induction d as [|[k' v'] d IH]; simpl.
  - now rewrite String.eqb_refl.
  - destruct (String.eqb k k') eqn:E; simpl; rewrite E; auto.
Qed.

Lemma dict_get_set_other {V} (k k0 : string) (v : V) (d : dict V) :
  k0 <> k -> dict_get k0 (dict_set k v d) = dict_get k0 d.
Proof.
  intros Hne. apply String.eqb_neq in Hne.
  induction d as [|[k' v'] d IH]; simpl.
  - now rewrite Hne.
  - destruct (String.eqb k k') eqn:E; simpl.
    + apply String.eqb_eq in E. subst k'. now rewrite Hne.
    + now rewrite IH.
Qed.

Lemma dict_get_del_same {V} (k : string) (d : dict V) :
  dict_get k (dict_del k d) = None.
Proof.
  induction d as [|[k' v'] d IH]; simpl; [reflexivity|].
  destruct (String.eqb k k') eqn:E; simpl; [assumption|]. now rewrite E.
Qed.

Lemma dict_get_del_other {V} (k k0 : string) (d : dict V) :
  k0 <> k -> dict_get k0 (dict_del k d) = dict_get k0 d.
Proof.
  intros Hne. apply String.eqb_neq in Hne.
  induction d as [|[k' v'] d IH]; simpl; [reflexivity|].
  destruct (String.eqb k k') eqn:E; simpl.
  - apply String.eqb_eq in E. subst k'. now rewrite Hne.
  - now rewrite IH.
Qed.

(** An assignment that succeeds has stored the value under the name, and
    nothing else happened. *)
Lemma setattr_Ok_store (name : string) (v : pyval) (w w' : world) :
  setattr name v w = (Ok tt, w') ->
  w' = mkWorld (dict_set name v (w_self w)) (w_draws w) (w_drawn w) (w_out w).
Proof.
  destruct (String.eqb_spec name "elements") as [->|Hne1].
  { intros H. apply setattr_elements_Ok in H. now destruct H as (_ & _ & _ & ->). }
  destruct (String.eqb_spec name "probabilities") as [->|Hne2].
  { intros H. apply setattr_probabilities_Ok in H.
    now destruct H as (_ & _ & _ & _ & _ & ->). }
  unfold setattr, RV_descriptor.
  rewrite (proj2 (String.eqb_neq _ _) Hne1), (proj2 (String.eqb_neq _ _) Hne2).
  unfold store. now intros [= <-].
Qed.

Lemma getattr_present (name : string) (v : pyval) (w : world) :
  dict_get name (w_self w) = Some v -> getattr name w = (Ok v, w).
Proof.
  intros H. unfold getattr, Descriptor__get, load, RV_descriptor.
  destruct (String.eqb name "elements") eqn:E1.
  - apply String.eqb_eq in E1. subst name. simpl. now rewrite H.
  - destruct (String.eqb name "probabilities") eqn:E2.
    + apply String.eqb_eq in E2. subst name. simpl. now rewrite H.
    + now rewrite H.
Qed.

(** X1.  Assignment and lookup round trip: after [self.name = value]
    succeeded, for a validated field or any other name, [self.name] evaluates
    to that value, every other attribute is what it was, and neither the
    random source nor standard output was touched. *)
Theorem setattr_then_getattr :
  forall (name : string) (value : pyval) (w w' : world),
    setattr name value w = (Ok tt, w') ->
    getattr name w' = (Ok value, w')
    /\ (forall other, other <> name ->
                      dict_get other (w_self w') = dict_get other (w_self w))
    /\ w_drawn w' = w_drawn w
    /\ w_out w' = w_out w.
Proof.
  intros name value w w' H. apply setattr_Ok_store in H. subst w'. simpl.
  split; [|split; [|split; reflexivity]].
  - apply getattr_present. simpl. apply dict_get_set_same.
  - intros other Hne. now apply dict_get_set_other.
Qed.

Lemma setattr_then_getattr_witness :
  setattr "elements" (VList [VInt 7; VInt 8]) world0
  = (Ok tt, mkWorld [("elements"%string, VList [VInt 7; VInt 8])]
                    (w_draws world0) 0 [])
  /\ getattr "elements"
       (mkWorld [("elements"%string, VList [VInt 7; VInt 8])] (w_draws world0) 0 [])
     = (Ok (VList [VInt 7; VInt 8]),
        mkWorld [("elements"%string, VList [VInt 7; VInt 8])] (w_draws world0) 0 []).
Proof.
  split; [reflexivity|].
  exact (proj1 (setattr_then_getattr "elements" (VList [VInt 7; VInt 8])
                  world0 _ eq_refl)).
Defined.

(** X2.  Validation comes before storing: an assignment that raises leaves
    every attribute of the instance and the random source as they were; the
    only trace it can leave is the one line that [_Probabilities] prints
    before it re-raises. *)
Theorem failed_setattr_stores_nothing :
  forall (name : string) (value : pyval) (e : exn) (w w' : world),
    setattr name value w = (Err e, w') ->
    w_self w' = w_self w
    /\ w_drawn w' = w_drawn w
    /\ (w_out w' = w_out w
        \/ (name = "probabilities"%string
            /\ exists msg, e = TypeError msg
                           /\ w_out w' = (w_out w ++ [("Probabilities required: "
                                                      ++ msg ++ ".")%string])%list)).
Proof.
  intros name value e w w'.
  destruct (String.eqb_spec name "elements") as [->|Hne1].
  { destruct value as [| | | | |l];
      try (rewrite setattr_elements_not_list by reflexivity;
           intros [= <- <-]; auto).
    rewrite setattr_elements_list. destruct (forallb _ l); [discriminate|].
    intros [= <- <-]. auto. }
  destruct (String.eqb_spec name "probabilities") as [->|Hne2].
  { destruct value as [| | | | |l];
      try (rewrite setattr_probabilities_not_list by reflexivity;
           intros [= <- <-]; auto).
    rewrite setattr_probabilities_list.
    destruct (py_sum_from (VInt 0) l) as [s|e'].
    - destruct (within_epsilon s) as [[|]|e'']; [discriminate|..];
        intros [= <- <-]; auto.
    - destruct e'; intros [= <- <-]; auto.
      simpl. split; [reflexivity|]. split; [reflexivity|]. right. eauto. }
  unfold setattr, RV_descriptor.
  rewrite (proj2 (String.eqb_neq _ _) Hne1), (proj2 (String.eqb_neq _ _) Hne2).
  discriminate.
Qed.

Lemma failed_setattr_stores_nothing_witness :
  setattr "probabilities" (VList [VFloat 0.5; VStr "a"]) world0
  = (Err (TypeError "unsupported operand type(s) for +: 'float' and 'str'"),
     with_out
       ["Probabilities required: unsupported operand type(s) for +: 'float' and 'str'."%string]
       world0)
  /\ w_self (with_out
       ["Probabilities required: unsupported operand type(s) for +: 'float' and 'str'."%string]
       world0) = w_self world0.
Proof.
  split; [reflexivity|].
  exact (proj1 (failed_setattr_stores_nothing "probabilities"
                  (VList [VFloat 0.5; VStr "a"]) _ world0 _ eq_refl)).
Defined.

(** X3.  The [elements] field accepts exactly the lists whose elements are
    all ints (booleans included); in particular the empty list is
    accepted. *)
Theorem elements_accepted_iff_list_of_ints :
  forall (value : pyval) (w : world),
    ((exists w', setattr "elements" value w = (Ok tt, w'))
     <-> exists l, value = VList l /\ forallb is_int l = true)
    /\ setattr "elements" (VList []) w
       = (Ok tt, mkWorld (dict_set "elements" (VList []) (w_self w)) (w_draws w)
                         (w_drawn w) (w_out w)).
Proof.
  intros value w. split; [split|reflexivity].
  - intros [w' H]. apply setattr_elements_Ok in H.
    destruct H as (l & -> & Hint & _). eauto.
  - intros (l & -> & Hint). rewrite setattr_elements_list.
    unfold is_int in Hint. rewrite Hint. unfold store. eauto.
Qed.

(** X4.  How the descriptor classes compose through the method resolution
    order: [Descriptor_] and [TypeChecked] (whose [ty] is [object]) store
    every value; [List] stores exactly the lists; the class made by
    [type('List_Integers_', (List_Integers,), {})] behaves as
    [List_Integers] on every value; and on a list [List_Integers] is
    [_Integers] and [List_Probabilities] is [_Probabilities]. *)
Theorem descriptor_classes_compose :
  forall (name : string) (value : pyval) (w : world),
    descriptor_set (mkDescriptor Descriptor_ name) value w = store name value w
    /\ descriptor_set (mkDescriptor TypeChecked name) value w = store name value w
    /\ descriptor_set (mkDescriptor List name) value w
       = (if isinstance value Tlist then store name value w
          else (Err (TypeError ("Expected <class 'list'> for field: "
                                ++ name ++ ".")%string), w))
    /\ descriptor_set (mkDescriptor List_Integers_ name) value w
       = descriptor_set (mkDescriptor List_Integers name) value w
    /\ (isinstance value Tlist = true ->
        descriptor_set (mkDescriptor List_Integers name) value w
        = descriptor_set (mkDescriptor _Integers name) value w
        /\ descriptor_set (mkDescriptor List_Probabilities name) value w
           = descriptor_set (mkDescriptor _Probabilities name) value w).
Proof.
  intros name value w.
  split; [reflexivity|]. split; [reflexivity|].
  split; [destruct value; reflexivity|].
  split; [reflexivity|].
  destruct value; try discriminate. intros _. split; reflexivity.
Qed.

(** X5.  The list test comes first: each of the four list-based descriptor
    classes refuses a value that is not a list with the [TypeError] of
    [TypeChecked], whatever the field is called, without looking at the
    elements, summing or printing, and leaves the world as it was. *)
Theorem list_check_comes_first :
  forall (c : dclass) (name : string) (value : pyval) (w : world),
    In c [List; List_Integers; List_Integers_; List_Probabilities] ->
    isinstance value Tlist = false ->
    descriptor_set (mkDescriptor c name) value w
    = (Err (TypeError ("Expected <class 'list'> for field: " ++ name ++ ".")%string),
       w).
Proof.
  intros c name value w Hc Hv.
  destruct value; try discriminate Hv;
    simpl in Hc; destruct Hc as [<-|[<-|[<-|[<-|[]]]]]; reflexivity.
Qed.

Lemma list_check_comes_first_witness :
  (In List_Probabilities [List; List_Integers; List_Integers_; List_Probabilities]
   /\ isinstance (VStr "ab") Tlist = false)
  /\ descriptor_set (mkDescriptor List_Probabilities "probabilities")
       (VStr "ab") world0
     = (Err (TypeError ("Expected <class 'list'> for field: "
                        ++ "probabilities" ++ ".")%string), world0).
Proof.
  assert (Hc : In List_Probabilities
                 [List; List_Integers; List_Integers_; List_Probabilities])
    by (simpl; auto).
  split; [split; [exact Hc | reflexivity]|].
  exact (list_check_comes_first List_Probabilities "probabilities" (VStr "ab")
           world0 Hc eq_refl).
Defined.

(** X6.  Deleting a validated field that was assigned: [__delete__] prints
    ["Delete <name>"], removes the field and nothing else; from then on
    reading the field raises [KeyError] (the descriptor looks in the
    instance dictionary), and deleting it again prints the line once more
    and raises [KeyError]. *)
Theorem delete_after_set :
  forall (name : string) (d : descriptor) (value : pyval) (w w' : world),
    RV_descriptor name = Some d ->
    setattr name value w = (Ok tt, w') ->
    exists w'',
      Descriptor__delete d w' = (Ok tt, w'')
      /\ w_out w'' = (w_out w' ++ [("Delete " ++ name)%string])%list
      /\ w_drawn w'' = w_drawn w'
      /\ (forall other, other <> name ->
                        dict_get other (w_self w'') = dict_get other (w_self w'))
      /\ getattr name w'' = (Err (KeyError name), w'')
      /\ Descriptor__delete d w''
         = (Err (KeyError name),
            with_out (w_out w'' ++ [("Delete " ++ name)%string]) w'').
Proof.
  intros name d value w w' Hd H.
  assert (Hname : d_name d = name).
  { unfold RV_descriptor in Hd.
    destruct (String.eqb_spec name "elements") as [->|_];
      [injection Hd as <-; reflexivity|].
    destruct (String.eqb_spec name "probabilities") as [->|_];
      [injection Hd as <-; reflexivity | discriminate]. }
  apply setattr_Ok_store in H. subst w'.
  unfold Descriptor__delete, bind, print. simpl. rewrite Hname.
  rewrite dict_get_set_same.
  eexists. split; [reflexivity|]. simpl.
  split; [reflexivity|]. split; [reflexivity|].
  split; [intros other Hne; now apply dict_get_del_other|].
  split.
  - unfold getattr. rewrite Hd. unfold Descriptor__get, load. rewrite Hname.
    simpl. now rewrite dict_get_del_same.
  - now rewrite dict_get_del_same.
Qed.

Lemma delete_after_set_witness :
  (RV_descriptor "elements" = Some (mkDescriptor List_Integers_ "elements")
   /\ setattr "elements" (VList [VInt 7]) world0
      = (Ok tt, mkWorld [("elements"%string, VList [VInt 7])]
                        (w_draws world0) 0 []))
  /\ exists w'',
      Descriptor__delete (mkDescriptor List_Integers_ "elements")
        (mkWorld [("elements"%string, VList [VInt 7])] (w_draws world0) 0 [])
      = (Ok tt, w'')
      /\ w_out w'' = ([] ++ [("Delete " ++ "elements")%string])%list
      /\ w_drawn w'' = 0%nat
      /\ (forall other, other <> "elements"%string ->
                        dict_get other (w_self w'')
                        = dict_get other [("elements"%string, VList [VInt 7])])
      /\ getattr "elements" w'' = (Err (KeyError "elements"), w'')
      /\ Descriptor__delete (mkDescriptor List_Integers_ "elements") w''
         = (Err (KeyError "elements"),
            with_out (w_out w'' ++ [("Delete " ++ "elements")%string]) w'').
Proof.
  split; [split; reflexivity|].
  exact (delete_after_set "elements" (mkDescriptor List_Integers_ "elements")
           (VList [VInt 7]) world0 _ eq_refl eq_refl).
Defined.

(** X7.  Construction and the accessors round trip: on an instance that [RV]
    built, [get_elements] and [get_probabilities] return the two arguments
    of the constructor, [l_elem] and [l_prob] hold their lengths, and the
    accessors change nothing. *)
Theorem accessors_return_constructor_arguments :
  forall (elements probabilities : pyval) (w0 w : world),
    RV elements probabilities w0 = (Ok tt, w) ->
    get_elements w = (Ok elements, w)
    /\ get_probabilities w = (Ok probabilities, w)
    /\ (exists n, py_len elements = Ok n /\ getattr "l_elem" w = (Ok (VInt n), w))
    /\ (exists n, py_len probabilities = Ok n
                  /\ getattr "l_prob" w = (Ok (VInt n), w)).
Proof.
  intros elements probabilities w0 w H. apply RV_Ok_inv in H.
  destruct H as (outcomes & probs & s & -> & -> & _ & _ & _ & ->).
  split; [reflexivity|]. split; [reflexivity|].
  split; eexists; split; reflexivity.
Qed.

Lemma accessors_return_constructor_arguments_witness :
  RV (VList [VInt 5]) (VList [VFloat 1.0]) world0
  = (Ok tt, mkWorld (instance_dict [VInt 5] [VFloat 1.0]) (w_draws world0) 0 [])
  /\ get_elements
       (mkWorld (instance_dict [VInt 5] [VFloat 1.0]) (w_draws world0) 0 [])
     = (Ok (VList [VInt 5]),
        mkWorld (instance_dict [VInt 5] [VFloat 1.0]) (w_draws world0) 0 []).
Proof.
  split; [reflexivity|].
  exact (proj1 (accessors_return_constructor_arguments (VList [VInt 5])
                  (VList [VFloat 1.0]) world0 _ eq_refl)).
Defined.

(** ** Sampling *)

Lemma next_num_self (w : world) :
  w_self (snd (next_num w)) = w_self w
  /\ w_draws (snd (next_num w)) = w_draws w
  /\ w_out (snd (next_num w)) = w_out w.
Proof.
  unfold next_num, list_tuple, bind, getattr, uniform01, lift. simpl.
  unfold Descriptor__get, load. simpl.
  repeat match goal with
         | |- context [match dict_get ?k ?d with _ => _ end] =>
             destruct (dict_get k d)
         | |- context [if py_eq ?a ?b then _ else _] => destruct (py_eq a b)
         | |- context [match py_iter ?v with _ => _ end] => destruct (py_iter v)
         | |- context [next_num_loop ?l ?c ?r ?i] => destruct (next_num_loop l c r i)
         end; simpl; auto.
Qed.

Lemma list_tuple_world (w : world) : snd (list_tuple w) = w.
Proof.
  unfold list_tuple, bind, getattr, lift. simpl.
  unfold Descriptor__get, load. simpl.
  repeat match goal with
         | |- context [match dict_get ?k ?d with _ => _ end] =>
             destruct (dict_get k d)
         | |- context [if py_eq ?a ?b then _ else _] => destruct (py_eq a b)
         | |- context [match py_iter ?v with _ => _ end] => destruct (py_iter v)
         end; simpl; auto.
Qed.

Lemma next_num_drawn (w : world) :
  w_drawn (snd (next_num w)) = w_drawn w
  \/ w_drawn (snd (next_num w)) = S (w_drawn w).
Proof.
  unfold next_num, bind. pose proof (list_tuple_world w) as H.
  destruct (list_tuple w) as [[l|e] w1]; simpl in H; subst w1; simpl; auto.
Qed.

(** The frame of a sampling loop: whatever a consumer that leaves the world
    alone does with the outcomes, [k] rounds leave the instance, the random
    sequence and standard output as they were and consume at most [k]
    random values. *)
Lemma sampling_frame {A} (consume : A -> pyval -> M A) :
  (forall a x w, snd (consume a x w) = w) ->
  forall (k : nat) (acc : A) (w : world),
    let w' := snd (for_range k (fun a => bind next_num (consume a)) acc w) in
    w_self w' = w_self w /\ w_draws w' = w_draws w /\ w_out w' = w_out w
    /\ (w_drawn w <= w_drawn w' <= k + w_drawn w)%nat.
Proof.
  intros Hc. induction k as [|k IH]; intros acc w; simpl.
  - repeat split; lia.
  - unfold bind in *.
    destruct (next_num_self w) as (Hs & Hd & Ho).
    pose proof (next_num_drawn w) as Hn.
    destruct (next_num w) as [[x|e] w1]; simpl in *.
    + pose proof (Hc acc x w1) as Hcw.
      destruct (consume acc x w1) as [[a|e] w2]; simpl in *; subst w2.
      * destruct (IH a w1) as (Hs' & Hd' & Ho' & Hn'). simpl in *.
        rewrite Hs', Hd', Ho', Hs, Hd, Ho. repeat split; lia.
      * rewrite Hs, Hd, Ho. repeat split; lia.
    + rewrite Hs, Hd, Ho. repeat split; lia.
Qed.

Lemma dict_incr_world (key : string) (d : dict Z) (w : world) :
  snd (dict_incr key d w) = w.
Proof. unfold dict_incr. destruct (dict_get key d); reflexivity. Qed.

Lemma getattr_world (name : string) (w : world) : snd (getattr name w) = w.
Proof.
  unfold getattr, Descriptor__get, load.
  destruct (RV_descriptor name);
    match goal with |- context [dict_get ?k ?d] => destruct (dict_get k d) end;
    reflexivity.
Qed.

(** X8.  Sampling never changes the Distribution: a draw, a batch histogram
    and a lazy histogram, in whatever state the instance is and whether they
    return or raise, leave every attribute of the instance and the random
    sequence as they were; a draw consumes at most one random value and a
    histogram of size [n] at most [n]; [generator_] prints nothing and
    [generator] exactly its trace line. *)
Theorem sampling_leaves_the_instance_alone :
  forall (str_other : pyval -> string) (n : Z) (w : world),
    (w_self (snd (next_num w)) = w_self w
     /\ w_out (snd (next_num w)) = w_out w
     /\ (w_drawn w <= w_drawn (snd (next_num w)) <= 1 + w_drawn w)%nat)
    /\ (w_self (snd (generator_ str_other n w)) = w_self w
        /\ w_out (snd (generator_ str_other n w)) = w_out w
        /\ (w_drawn w <= w_drawn (snd (generator_ str_other n w))
            <= Z.to_nat n + w_drawn w)%nat)
    /\ (w_self (snd (generator str_other n w)) = w_self w
        /\ w_out (snd (generator str_other n w)) = (w_out w ++ [debug_line])%list
        /\ (w_drawn w <= w_drawn (snd (generator str_other n w))
            <= Z.to_nat n + w_drawn w)%nat).
Proof.
  intros str_other n w.
  assert (G : w_self (snd (generator_ str_other n w)) = w_self w
              /\ w_out (snd (generator_ str_other n w)) = w_out w
              /\ (w_drawn w <= w_drawn (snd (generator_ str_other n w))
                  <= Z.to_nat n + w_drawn w)%nat).
  { remember (generator_ str_other n w) as r eqn:E.
    unfold generator_, get_elements, bind at 1 2 in E.
    pose proof (getattr_world "elements" w) as Hg.
    destruct (getattr "elements" w) as [[els|e] w1]; simpl in Hg; subst w1;
      [|subst r; simpl; repeat split; lia].
    unfold lift in E.
    destruct (py_iter els) as [items|e]; [|subst r; simpl; repeat split; lia].
    destruct (sampling_frame
                (fun dict_ output => dict_incr (py_str str_other output) dict_)
                (fun a x w => dict_incr_world _ a w)
                (Z.to_nat n) (zero_counts (map (py_str str_other) items)) w)
      as (Hs & _ & Ho & Hn).
    subst r. exact (conj Hs (conj Ho Hn)). }
  split; [|split; [exact G|]].
  - destruct (next_num_self w) as (Hs & _ & Ho).
    pose proof (next_num_drawn w). repeat split; auto; lia.
  - rewrite generator_eq. simpl. destruct G as (Hs & Ho & Hn). auto.
Qed.

Lemma for_range_collect_acc (k : nat) :
  forall (acc : list pyval) (w : world),
    for_range k (fun acc => bind next_num (fun output => ret (acc ++ [output])%list))
      acc w
    = match for_range k (fun acc => bind next_num
                                      (fun output => ret (acc ++ [output])%list))
              [] w with
      | (Ok l, w') => (Ok (acc ++ l)%list, w')
      | (Err e, w') => (Err e, w')
      end.
Proof.
  induction k as [|k IH]; intros acc w; simpl.
  - unfold ret. now rewrite app_nil_r.
  - unfold bind at 1 2 4 5. destruct (next_num w) as [[x|e] w1]; [|reflexivity].
    unfold ret at 1 3. cbv beta iota. rewrite (IH (acc ++ [x])%list), (IH [x]).
    destruct (for_range k _ [] w1) as [[l|e] w2]; [|reflexivity].
    simpl. now rewrite <- app_assoc.
Qed.

(** The draws of a batch on an instance every draw of which succeeds. *)
Lemma batch_draws_instance (outcomes probs : list pyval) (s : pyval) :
  List.length outcomes = List.length probs ->
  py_sum_from (VInt 0) probs = Ok s ->
  probs <> [] ->
  forall (k : nat) (w : world),
    w_self w = instance_dict outcomes probs ->
    exists l,
      for_range k (fun acc => bind next_num
                                (fun output => ret (acc ++ [output])%list)) [] w
      = (Ok l, after_draws k w)
      /\ List.length l = k
      /\ Forall (fun x => In x outcomes) l.
Proof.
  intros Hlen Hsum Hne.
  induction k as [|k IH]; intros w Hself.
  - exists []. simpl. unfold ret. rewrite after_draws_zero. auto.
  - destruct (next_num_instance outcomes probs s w Hself Hlen Hsum Hne)
      as (x & Hnext & Hsel).
    apply selected_In in Hsel.
    destruct (IH (after_draws 1 w) Hself) as (l & Hrun & Hl & Hall).
    exists (x :: l). split; [|split].
    + simpl. unfold bind at 1 2. rewrite Hnext. unfold ret at 1.
      rewrite for_range_collect_acc, Hrun, after_draws_succ. reflexivity.
    + simpl. now rewrite Hl.
    + constructor; assumption.
Qed.

(** X9.  Every sampled value is one of the declared outcomes: on a
    Distribution that [RV] built from sequences of equal length, each draw
    returns an element of [outcomes] (an int or a bool), and both the batch
    of [n] draws and the lazy sequence of [n] draws are lists of exactly
    [n] such elements (none for a negative [n]). *)
Theorem every_draw_is_an_outcome :
  forall (outcomes probabilities : list pyval) (w0 w w' : world) (n : Z),
    RV (VList outcomes) (VList probabilities) w0 = (Ok tt, w) ->
    List.length outcomes = List.length probabilities ->
    w_self w' = w_self w ->
    (exists x, next_num w' = (Ok x, after_draws 1 w')
               /\ In x outcomes /\ is_int x = true)
    /\ (exists l,
           batch_draws n w' = (Ok l, after_draws (Z.to_nat n) w')
           /\ lazy_draws n w' = (Ok l, after_draws (Z.to_nat n) w')
           /\ List.length l = Z.to_nat n
           /\ Forall (fun x => In x outcomes /\ is_int x = true) l).
Proof.
  intros outcomes probabilities w0 w w' n HRV Hlen Hself.
  apply RV_Ok_inv in HRV.
  destruct HRV as (o & p & s & [= <-] & [= <-] & Hint & Hsum & Heps & ->).
  simpl in Hself.
  pose proof (within_epsilon_nonempty _ _ Hsum Heps) as Hne.
  rewrite forallb_forall in Hint.
  split.
  - destruct (next_num_instance outcomes probabilities s w' Hself Hlen Hsum Hne)
      as (x & Hnext & Hsel).
    apply selected_In in Hsel. exists x.
    split; [exact Hnext|]. split; [exact Hsel | apply Hint, Hsel].
  - destruct (batch_draws_instance outcomes probabilities s Hlen Hsum Hne
                (Z.to_nat n) w' Hself) as (l & Hrun & Hl & Hall).
    exists l. split; [exact Hrun|]. split; [|split; [exact Hl|]].
    + unfold lazy_draws. rewrite for_gen_generator_next. exact Hrun.
    + eapply Forall_impl; [|exact Hall]. simpl. intros x Hx. split; auto.
      apply Hint, Hx.
Qed.

Lemma every_draw_is_an_outcome_witness :
  (RV (VList [VInt 1; VInt 2]) (VList [VFloat 0.5; VFloat 0.5]) world0
   = (Ok tt, mkWorld (instance_dict [VInt 1; VInt 2] [VFloat 0.5; VFloat 0.5])
                     (w_draws world0) 0 [])
   /\ List.length [VInt 1; VInt 2] = List.length [VFloat 0.5; VFloat 0.5])
  /\ exists l,
      batch_draws 3
        (mkWorld (instance_dict [VInt 1; VInt 2] [VFloat 0.5; VFloat 0.5])
                 (w_draws world0) 0 [])
      = (Ok l, after_draws (Z.to_nat 3)
                 (mkWorld (instance_dict [VInt 1; VInt 2] [VFloat 0.5; VFloat 0.5])
                          (w_draws world0) 0 []))
      /\ lazy_draws 3
           (mkWorld (instance_dict [VInt 1; VInt 2] [VFloat 0.5; VFloat 0.5])
                    (w_draws world0) 0 [])
         = (Ok l, after_draws (Z.to_nat 3)
                    (mkWorld (instance_dict [VInt 1; VInt 2] [VFloat 0.5; VFloat 0.5])
                             (w_draws world0) 0 []))
      /\ List.length l = Z.to_nat 3
      /\ Forall (fun x => In x [VInt 1; VInt 2] /\ is_int x = true) l.
Proof.
  split; [split; reflexivity|].
  exact (proj2 (every_draw_is_an_outcome [VInt 1; VInt 2]
                  [VFloat 0.5; VFloat 0.5] world0 _ _ 3 eq_refl eq_refl eq_refl)).
Defined.

(** X11.  A sample size [n <= 0] draws nothing: on an instance that [RV]
    built, whether or not its two sequences have the same length, with
    outcomes that [str] converts (numerals within the interpreter's limit),
    both histogram builders return the histogram of zeros over the
    stringified outcomes without consuming a random value or raising, and
    the batch and the lazy sequence of draws are empty. *)
Theorem non_positive_size_draws_nothing :
  forall (str_other : pyval -> string) (outcomes probabilities : list pyval)
         (w0 w : world) (n : Z),
    RV (VList outcomes) (VList probabilities) w0 = (Ok tt, w) ->
    forallb within_str_limit outcomes = true ->
    n <= 0 ->
    generator_ str_other n w
    = (Ok (zero_counts (map (py_str str_other) outcomes)), w)
    /\ generator str_other n w
       = (Ok (zero_counts (map (py_str str_other) outcomes)),
          with_out (w_out w ++ [debug_line]) w)
    /\ total (zero_counts (map (py_str str_other) outcomes)) = 0
    /\ batch_draws n w = (Ok [], w)
    /\ lazy_draws n w = (Ok [], w).
Proof.
  intros str_other outcomes probabilities w0 w n HRV Hstr Hn.
  apply RV_Ok_inv in HRV.
  destruct HRV as (o & p & s & [= <-] & [= <-] & _ & _ & _ & ->).
  set (w := mkWorld (instance_dict outcomes probabilities) (w_draws w0)
                    (w_drawn w0) (w_out w0)).
  assert (Hz : Z.to_nat n = 0%nat) by lia.
  assert (G : generator_ str_other n w
              = (Ok (zero_counts (map (py_str str_other) outcomes)), w)).
  { unfold generator_, bind at 1 2.
    rewrite (get_elements_instance outcomes probabilities) by reflexivity.
    unfold lift. simpl py_iter. cbv beta iota. rewrite Hz. reflexivity. }
  split; [exact G|]. split; [rewrite generator_eq, G; reflexivity|].
  split; [apply total_zero, zero_counts_values|].
  assert (B : batch_draws n w = (Ok [], w))
    by (unfold batch_draws; rewrite Hz; reflexivity).
  split; [exact B|].
  unfold lazy_draws. rewrite for_gen_generator_next. exact B.
Qed.

Lemma non_positive_size_draws_nothing_witness :
  (RV (VList [VInt 1; VInt 2]) (VList [VFloat 1.0]) world0
   = (Ok tt, mkWorld (instance_dict [VInt 1; VInt 2] [VFloat 1.0])
                     (w_draws world0) 0 [])
   /\ forallb within_str_limit [VInt 1; VInt 2] = true
   /\ -3 <= 0)
  /\ generator_ (fun _ => EmptyString) (-3)
       (mkWorld (instance_dict [VInt 1; VInt 2] [VFloat 1.0]) (w_draws world0) 0 [])
     = (Ok (zero_counts (map (py_str (fun _ => EmptyString)) [VInt 1; VInt 2])),
        mkWorld (instance_dict [VInt 1; VInt 2] [VFloat 1.0]) (w_draws world0) 0 []).
Proof.
  assert (Hn : -3 <= 0) by lia.
  split; [split; [reflexivity | split; [reflexivity | exact Hn]]|].
  exact (proj1 (non_positive_size_draws_nothing (fun _ => EmptyString)
                  [VInt 1; VInt 2] [VFloat 1.0] world0 _ (-3)
                  eq_refl eq_refl Hn)).
Defined.

(** X12.  On a Distribution built from sequences of different lengths, with
    outcomes that [str] converts (numerals within the interpreter's limit),
    a histogram of size [n >= 1] is never produced: [generator_] raises the
    shape error at its first draw, before a random value is consumed and
    leaving the world as it was; [generator] does the same after printing
    its trace line; so do the batch and the lazy sequence of draws. *)
Theorem mismatched_lengths_stop_the_histogram :
  forall (str_other : pyval -> string) (outcomes probabilities : list pyval)
         (w0 w : world) (n : Z),
    RV (VList outcomes) (VList probabilities) w0 = (Ok tt, w) ->
    List.length outcomes <> List.length probabilities ->
    forallb within_str_limit outcomes = true ->
    1 <= n ->
    exists e,
      ShapeMismatch e
      /\ generator_ str_other n w = (Err e, w)
      /\ generator str_other n w = (Err e, with_out (w_out w ++ [debug_line]) w)
      /\ batch_draws n w = (Err e, w)
      /\ lazy_draws n w = (Err e, w).
Proof.
  intros str_other outcomes probs w0 w n H Hlen Hstr Hn.
  apply RV_Ok_inv in H.
  destruct H as (o & p & s & [= <-] & [= <-] & _ & _ & _ & ->).
  set (w := mkWorld (instance_dict outcomes probs) (w_draws w0) (w_drawn w0)
                    (w_out w0)).
  assert (Hnext : next_num w
                  = (Err (ValueError "Expecting to map each element to a probability."),
                     w)).
  { unfold next_num, bind.
    rewrite (list_tuple_instance outcomes probs) by reflexivity.
    destruct (Z.eqb_spec (Z.of_nat (List.length outcomes))
                         (Z.of_nat (List.length probs))) as [E|E];
      [|reflexivity].
    lia. }
  destruct (Z.to_nat n) as [|k] eqn:Hk; [lia|].
  assert (G : generator_ str_other n w
              = (Err (ValueError "Expecting to map each element to a probability."),
                 w)).
  { unfold generator_, bind at 1 2.
    rewrite (get_elements_instance outcomes probs) by reflexivity.
    unfold lift. simpl py_iter. cbv beta iota. rewrite Hk. simpl for_range.
    unfold bind at 1 2. rewrite Hnext. reflexivity. }
  assert (B : batch_draws n w
              = (Err (ValueError "Expecting to map each element to a probability."),
                 w)).
  { unfold batch_draws. rewrite Hk. simpl for_range.
    unfold bind at 1 2. rewrite Hnext. reflexivity. }
  eexists. split; [reflexivity|]. split; [exact G|].
  split; [rewrite generator_eq, G; reflexivity|]. split; [exact B|].
  unfold lazy_draws. rewrite for_gen_generator_next. exact B.
Qed.

Lemma mismatched_lengths_stop_the_histogram_witness :
  (RV (VList [VInt 1; VInt 2]) (VList [VFloat 1.0]) world0
   = (Ok tt, mkWorld (instance_dict [VInt 1; VInt 2] [VFloat 1.0])
                     (w_draws world0) 0 [])
   /\ List.length [VInt 1; VInt 2] <> List.length [VFloat 1.0]
   /\ forallb within_str_limit [VInt 1; VInt 2] = true
   /\ 1 <= 5)
  /\ exists e,
      ShapeMismatch e
      /\ generator_ (fun _ => EmptyString) 5
           (mkWorld (instance_dict [VInt 1; VInt 2] [VFloat 1.0])
                    (w_draws world0) 0 [])
         = (Err e, mkWorld (instance_dict [VInt 1; VInt 2] [VFloat 1.0])
                           (w_draws world0) 0 []).
Proof.
  assert (Hlen : List.length [VInt 1; VInt 2] <> List.length [VFloat 1.0])
    by (simpl; discriminate).
  assert (Hn : 1 <= 5) by lia.
  split; [split; [reflexivity | split; [exact Hlen | split;
                                                      [reflexivity | exact Hn]]]|].
  destruct (mismatched_lengths_stop_the_histogram (fun _ => EmptyString)
              [VInt 1; VInt 2] [VFloat 1.0] world0 _ 5
              eq_refl Hlen eq_refl Hn) as (e & He & Hg & _).
  exists e. split; assumption.
Defined.

(** X13.  An instance whose outcomes were reassigned to the empty list (which
    the [elements] field accepts) still passes the length test of
    [list_tuple], because the recorded lengths are those of the
    construction; the scan then has nothing to iterate and the final
    [return item] raises [UnboundLocalError], after one random value was
    consumed. *)
Theorem empty_outcomes_leave_item_unbound :
  forall (outcomes probabilities : list pyval) (w0 w w1 w' : world),
    RV (VList outcomes) (VList probabilities) w0 = (Ok tt, w) ->
    List.length outcomes = List.length probabilities ->
    setattr "elements" (VList []) w = (Ok tt, w1) ->
    w_self w' = w_self w1 ->
    list_tuple w' = (Ok [], w')
    /\ next_num w' = (Err (UnboundLocalError "item"), after_draws 1 w').
Proof.
  intros outcomes probabilities w0 w w1 w' HRV Hlen Hset Hself.
  apply RV_Ok_inv in HRV.
  destruct HRV as (o & p & s & [= <-] & [= <-] & _ & _ & _ & ->).
  rewrite setattr_elements_list in Hset. simpl in Hset. unfold store in Hset.
  injection Hset as <-. simpl in Hself.
  assert (Hlt : list_tuple w' = (Ok [], w')).
  { destruct w' as [slf dr k out]. simpl in Hself. subst slf.
    unfold list_tuple, bind, getattr. cbn. rewrite Hlen, Z.eqb_refl.
    reflexivity. }
  split; [exact Hlt|].
  unfold next_num, bind. rewrite Hlt. reflexivity.
Qed.

Lemma empty_outcomes_leave_item_unbound_witness :
  (RV (VList [VInt 5]) (VList [VFloat 1.0]) world0
   = (Ok tt, mkWorld (instance_dict [VInt 5] [VFloat 1.0]) (w_draws world0) 0 [])
   /\ List.length [VInt 5] = List.length [VFloat 1.0]
   /\ setattr "elements" (VList [])
        (mkWorld (instance_dict [VInt 5] [VFloat 1.0]) (w_draws world0) 0 [])
      = (Ok tt, mkWorld (dict_set "elements" (VList [])
                                  (instance_dict [VInt 5] [VFloat 1.0]))
                        (w_draws world0) 0 []))
  /\ next_num (mkWorld (dict_set "elements" (VList [])
                                 (instance_dict [VInt 5] [VFloat 1.0]))
                       (w_draws world0) 0 [])
     = (Err (UnboundLocalError "item"),
        after_draws 1
          (mkWorld (dict_set "elements" (VList [])
                             (instance_dict [VInt 5] [VFloat 1.0]))
                   (w_draws world0) 0 [])).
Proof.
  split; [split; [reflexivity | split; reflexivity]|].
  exact (proj2 (empty_outcomes_leave_item_unbound [VInt 5] [VFloat 1.0] world0
                  _ _ _ eq_refl eq_refl eq_refl eq_refl)).
Defined.

(** ** The keys of the histogram *)

Lemma str_int_inj (a b : Z) : str_int a = str_int b -> a = b.
Proof.
  unfold str_int. intros H.
  assert (Hnn : forall z, Z.to_int z <> Decimal.Pos Decimal.Nil
                          /\ Z.to_int z <> Decimal.Neg Decimal.Nil).
  { intros [|p|p]; simpl; split; try discriminate;
      intros [= E]; exact (Unsigned.to_uint_nonnil p E). }
  apply (f_equal NilZero.int_of_string) in H.
  rewrite !NilZero.isi in H by apply Hnn.
  injection H as H. now apply DecimalZ.to_int_inj.
Qed.

Lemma str_int_not_bool (z : Z) :
  str_int z <> "True"%string /\ str_int z <> "False"%string.
Proof.
  assert (Hnn : Z.to_int z <> Decimal.Pos Decimal.Nil
                /\ Z.to_int z <> Decimal.Neg Decimal.Nil).
  { destruct z as [|p|p]; simpl; split; try discriminate;
      intros [= E]; exact (Unsigned.to_uint_nonnil p E). }
  unfold str_int. split; intros H;
    apply (f_equal NilZero.int_of_string) in H;
    rewrite NilZero.isi in H by apply Hnn; discriminate H.
Qed.

(** [str] tells apart the values an outcome can be: two ints or booleans
    with the same string are the same value. *)
Lemma py_str_inj_on_ints (str_other : pyval -> string) (x y : pyval) :
  is_int x = true -> is_int y = true ->
  py_str str_other x = py_str str_other y -> x = y.
Proof.
  intros Hx Hy H.
  destruct x as [| [|] | a | | |]; try discriminate Hx;
    destruct y as [| [|] | b | | |]; try discriminate Hy;
    simpl in H; try reflexivity; try discriminate H.
  all: try (exfalso; destruct (str_int_not_bool b) as [H1 H2]; congruence).
  all: try (exfalso; destruct (str_int_not_bool a) as [H1 H2]; congruence).
  f_equal. now apply str_int_inj.
Qed.

Lemma dict_keys_set_absent {V} (k : string) (v : V) (d : dict V) :
  ~ In k (dict_keys d) -> dict_keys (dict_set k v d) = (dict_keys d ++ [k])%list.
Proof.
  unfold dict_keys.
  induction d as [|[k' v'] d IH]; simpl; intros Hnin; [reflexivity|].
  destruct (String.eqb_spec k k') as [->|Hne].
  - elim Hnin. auto.
  - simpl. rewrite IH; auto.
Qed.

Lemma dict_of_pairs_keys_NoDup {V} (pairs : list (string * V)) :
  forall d : dict V,
    NoDup (dict_keys d ++ map fst pairs) ->
    dict_keys (fold_left (fun d kv => dict_set (fst kv) (snd kv) d) pairs d)
    = (dict_keys d ++ map fst pairs)%list.
Proof.
  induction pairs as [|[k v] pairs IH]; intros d ND; simpl.
  - now rewrite app_nil_r.
  - assert (Hnin : ~ In k (dict_keys d)).
    { intros Hin. apply NoDup_remove_2 in ND. apply ND.
      apply in_or_app. auto. }
    rewrite IH; rewrite (dict_keys_set_absent k v d Hnin), <- app_assoc; simpl;
      [reflexivity | exact ND].
Qed.

Lemma zero_counts_keys_NoDup (keys : list string) :
  NoDup keys -> dict_keys (zero_counts keys) = keys.
Proof.
  intros ND. unfold zero_counts, dict_of_pairs.
  rewrite dict_of_pairs_keys_NoDup;
    rewrite map_fst_combine_eq by (now rewrite length_map); simpl; auto.
Qed.

(** X14.  One counter per distinct outcome, in the order supplied: on a
    Distribution built from sequences of equal length, with outcomes that
    [str] converts (numerals within the interpreter's limit), the histogram
    of any size has at most as many keys as there are outcomes; its keys are the
    stringified outcomes in the order of [outcomes] exactly when those
    strings are pairwise distinct, and they are whenever the outcomes are
    pairwise distinct values (an outcome that occurs twice shares one
    counter). *)
Theorem histogram_keys_follow_outcomes :
  forall (str_other : pyval -> string) (outcomes probabilities : list pyval)
         (w0 w : world) (n : Z),
    RV (VList outcomes) (VList probabilities) w0 = (Ok tt, w) ->
    List.length outcomes = List.length probabilities ->
    forallb within_str_limit outcomes = true ->
    exists h,
      generator_ str_other n w = (Ok h, after_draws (Z.to_nat n) w)
      /\ (List.length (dict_keys h) <= List.length outcomes)%nat
      /\ (dict_keys h = map (py_str str_other) outcomes
          <-> NoDup (map (py_str str_other) outcomes))
      /\ (NoDup outcomes -> dict_keys h = map (py_str str_other) outcomes).
Proof.
  intros str_other outcomes probabilities w0 w n HRV Hlen Hstr.
  apply RV_Ok_inv in HRV.
  destruct HRV as (o & p & s & [= <-] & [= <-] & Hint & Hsum & Heps & ->).
  pose proof (within_epsilon_nonempty _ _ Hsum Heps) as Hne.
  destruct (generator__instance str_other outcomes probabilities s n
              (mkWorld (instance_dict outcomes probabilities) (w_draws w0)
                       (w_drawn w0) (w_out w0))
              eq_refl Hlen Hsum Hne) as (h & Hrun & Hk & _ & _).
  exists h. split; [exact Hrun|]. rewrite Hk.
  assert (Hiff : dict_keys (zero_counts (map (py_str str_other) outcomes))
                 = map (py_str str_other) outcomes
                 <-> NoDup (map (py_str str_other) outcomes)).
  { split; [|apply zero_counts_keys_NoDup].
    intros E. rewrite <- E. apply zero_counts_NoDup. }
  split; [|split; [exact Hiff|]].
  - rewrite <- (length_map (py_str str_other) outcomes).
    apply NoDup_incl_length; [apply zero_counts_NoDup|].
    intros k Hk'. now apply zero_counts_keys.
  - intros ND. apply Hiff.
    rewrite forallb_forall in Hint.
    clear -ND Hint. induction outcomes as [|x l IH]; simpl; constructor.
    + inversion ND as [|? ? Hnin _]; subst. intros Hin.
      apply in_map_iff in Hin. destruct Hin as (y & Hy & Hin).
      apply py_str_inj_on_ints in Hy;
        [subst y; contradiction | apply Hint; simpl; auto
         | apply Hint; simpl; auto].
    + inversion ND; subst. apply IH; try assumption.
      intros y Hy. apply Hint. simpl. auto.
Qed.

Lemma histogram_keys_follow_outcomes_witness :
  (RV (VList [VInt 1; VInt 2]) (VList [VFloat 0.5; VFloat 0.5]) world0
   = (Ok tt, mkWorld (instance_dict [VInt 1; VInt 2] [VFloat 0.5; VFloat 0.5])
                     (w_draws world0) 0 [])
   /\ List.length [VInt 1; VInt 2] = List.length [VFloat 0.5; VFloat 0.5]
   /\ forallb within_str_limit [VInt 1; VInt 2] = true)
  /\ exists h,
      generator_ (fun _ => EmptyString) 3
        (mkWorld (instance_dict [VInt 1; VInt 2] [VFloat 0.5; VFloat 0.5])
                 (w_draws world0) 0 [])
      = (Ok h, after_draws (Z.to_nat 3)
                 (mkWorld (instance_dict [VInt 1; VInt 2] [VFloat 0.5; VFloat 0.5])
                          (w_draws world0) 0 []))
      /\ (List.length (dict_keys h) <= List.length [VInt 1; VInt 2])%nat.
Proof.
  split; [split; [reflexivity | split; reflexivity]|].
  destruct (histogram_keys_follow_outcomes (fun _ => EmptyString)
              [VInt 1; VInt 2] [VFloat 0.5; VFloat 0.5] world0 _ 3
              eq_refl eq_refl eq_refl) as (h & Hrun & Hle & _).
  exists h. split; assumption.
Defined.

(** ** The unit tests *)

Lemma ratios_by_zero (values : list Z) :
  values <> [] -> ratios values 0 = Thrown (ZeroDivisionError "division by zero").
Proof. destruct values as [|v rest]; [congruence | reflexivity]. Qed.

Lemma ratios_length (values : list Z) (n : Z) (output : list float) :
  ratios values n = Done output -> List.length output = List.length values.
Proof.
  revert output. induction values as [|v rest IH]; intros output; simpl.
  - now intros [= <-].
  - destruct (int_truediv v n); [|discriminate].
    destruct (ratios rest n) as [qs|]; [|discriminate].
    intros [= <-]. simpl. now rewrite (IH qs).
Qed.

Lemma zero_counts_nonempty (keys : list string) :
  keys <> [] -> dict_values (zero_counts keys) <> [].
Proof.
  destruct keys as [|k keys]; [congruence|]. intros _ E.
  assert (Hin : In k (dict_keys (zero_counts (k :: keys))))
    by (apply zero_counts_keys; simpl; auto).
  unfold dict_keys, dict_values in *.
  destruct (zero_counts (k :: keys)); [destruct Hin | discriminate].
Qed.

(** X15.  [test_sum] on the histograms of a Distribution built from
    sequences of equal length, with outcomes that [str] converts (numerals
    within the interpreter's limit): it passes on what [generator_] and
    [generator] return for every size [n >= 0], and for a negative [n] that
    [str] converts (the histogram of zeros) its assertion fails with the
    message ["Should equal <n>."]. *)
Theorem test_sum_passes_iff_size_not_negative :
  forall (str_other : pyval -> string) (outcomes probabilities : list pyval)
         (w0 w : world) (n : Z),
    RV (VList outcomes) (VList probabilities) w0 = (Ok tt, w) ->
    List.length outcomes = List.length probabilities ->
    forallb within_str_limit outcomes = true ->
    exists h,
      fst (generator_ str_other n w) = Ok h
      /\ fst (generator str_other n w) = Ok h
      /\ (0 <= n -> test_sum h n = Done tt)
      /\ (n < 0 -> within_str_limit (VInt n) = true ->
          test_sum h n
          = Thrown (AssertionError ("Should equal " ++ str_int n ++ ".")%string)).
Proof.
  intros str_other outcomes probabilities w0 w n HRV Hlen Hstr.
  apply RV_Ok_inv in HRV.
  destruct HRV as (o & p & s & [= <-] & [= <-] & _ & Hsum & Heps & ->).
  pose proof (within_epsilon_nonempty _ _ Hsum Heps) as Hne.
  destruct (generator__instance str_other outcomes probabilities s n
              (mkWorld (instance_dict outcomes probabilities) (w_draws w0)
                       (w_drawn w0) (w_out w0))
              eq_refl Hlen Hsum Hne) as (h & Hrun & _ & _ & Ht).
  exists h. split; [now rewrite Hrun|].
  split; [rewrite generator_eq, Hrun; reflexivity|].
  unfold test_sum. rewrite Ht. split; [intros Hn | intros Hn _].
  - rewrite Z2Nat.id by assumption. now rewrite Z.eqb_refl.
  - destruct (Z.eqb_spec (Z.of_nat (Z.to_nat n)) n) as [E|E]; [lia | reflexivity].
Qed.

Lemma test_sum_passes_iff_size_not_negative_witness :
  (RV (VList [VInt 1; VInt 2]) (VList [VFloat 0.5; VFloat 0.5]) world0
   = (Ok tt, mkWorld (instance_dict [VInt 1; VInt 2] [VFloat 0.5; VFloat 0.5])
                     (w_draws world0) 0 [])
   /\ List.length [VInt 1; VInt 2] = List.length [VFloat 0.5; VFloat 0.5]
   /\ forallb within_str_limit [VInt 1; VInt 2] = true)
  /\ exists h,
      fst (generator_ (fun _ => EmptyString) 3
             (mkWorld (instance_dict [VInt 1; VInt 2] [VFloat 0.5; VFloat 0.5])
                      (w_draws world0) 0 [])) = Ok h
      /\ test_sum h 3 = Done tt.
Proof.
  split; [split; [reflexivity | split; reflexivity]|].
  destruct (test_sum_passes_iff_size_not_negative (fun _ => EmptyString)
              [VInt 1; VInt 2] [VFloat 0.5; VFloat 0.5] world0 _ 3
              eq_refl eq_refl eq_refl) as (h & Hrun & _ & Hpass & _).
  exists h. split; [exact Hrun | apply Hpass; lia].
Defined.

(** X16.  A sample size of zero divides by zero: on any histogram with at
    least one counter, [prob_sum(dict_, 0)] and [probability(dict_, 0, _)]
    raise [ZeroDivisionError] (the latter before it prints anything).  So on
    a Distribution built from sequences of equal length, with outcomes that
    [str] converts (numerals within the interpreter's limit), the histogram
    of size 0 passes [test_sum] and then stops [prob_sum].  On the histogram
    without counters [prob_sum] fails its assertion for every [n]. *)
Theorem zero_size_divides_by_zero :
  (forall (str_other : pyval -> string) (dict_ : dict Z) (prob_ : list pyval)
          (w : world),
      dict_ <> [] ->
      prob_sum dict_ 0 = Thrown (ZeroDivisionError "division by zero")
      /\ probability str_other dict_ 0 prob_ w
         = (Thrown (ZeroDivisionError "division by zero"), w))
  /\ (forall (str_other : pyval -> string) (outcomes probabilities : list pyval)
             (w0 w : world),
         RV (VList outcomes) (VList probabilities) w0 = (Ok tt, w) ->
         List.length outcomes = List.length probabilities ->
         forallb within_str_limit outcomes = true ->
         exists h,
           generator_ str_other 0 w = (Ok h, w)
           /\ test_sum h 0 = Done tt
           /\ prob_sum h 0 = Thrown (ZeroDivisionError "division by zero"))
  /\ (forall n : Z,
         prob_sum [] n
         = Thrown (AssertionError "Should equal 1.0, or within epsilon.")).
Proof.
  assert (General : forall (str_other : pyval -> string) (dict_ : dict Z)
                           (prob_ : list pyval) (w : world),
             dict_ <> [] ->
             prob_sum dict_ 0 = Thrown (ZeroDivisionError "division by zero")
             /\ probability str_other dict_ 0 prob_ w
                = (Thrown (ZeroDivisionError "division by zero"), w)).
  { intros str_other dict_ prob_ w Hne.
    assert (Hv : dict_values dict_ <> [])
      by (destruct dict_; [congruence | discriminate]).
    unfold prob_sum, probability. rewrite (ratios_by_zero _ Hv). auto. }
  split; [exact General|]. split; [|reflexivity].
  intros str_other outcomes probabilities w0 w HRV Hlen Hstr.
  apply RV_Ok_inv in HRV.
  destruct HRV as (o & p & s & [= <-] & [= <-] & _ & Hsum & Heps & ->).
  pose proof (within_epsilon_nonempty _ _ Hsum Heps) as Hne.
  exists (zero_counts (map (py_str str_other) outcomes)).
  split; [|split].
  - unfold generator_, bind at 1 2.
    rewrite (get_elements_instance outcomes probabilities) by reflexivity.
    reflexivity.
  - unfold test_sum. now rewrite total_zero by apply zero_counts_values.
  - apply (General str_other _ [] w0).
    intros E. apply (zero_counts_nonempty (map (py_str str_other) outcomes)).
    + destruct outcomes, probabilities; simpl in *; congruence.
    + now rewrite E.
Qed.

Lemma zero_size_divides_by_zero_witness :
  [("1"%string, 0)] <> []
  /\ prob_sum [("1"%string, 0)] 0 = Thrown (ZeroDivisionError "division by zero").
Proof.
  assert (H : [("1"%string, 0)] <> []) by discriminate.
  split; [exact H|].
  exact (proj1 (proj1 zero_size_divides_by_zero (fun _ => EmptyString)
                  [("1"%string, 0)] [] world0 H)).
Defined.

Lemma probability_loop_overruns (str_other : pyval -> string)
  (output : list float) :
  forall (prob_ : list pyval) (i : nat) (w : world),
    (i <= List.length output)%nat ->
    (List.length output < i + List.length prob_)%nat ->
    exists e w', probability_loop str_other output i prob_ w = (Thrown e, w').
Proof.
  induction prob_ as [|p rest IH]; intros i w Hi Hlt; simpl in *; [lia|].
  destruct (nth_error output i) as [o|] eqn:E; [|eauto].
  assert (i < List.length output)%nat by (apply nth_error_Some; congruence).
  destruct (rbind (py_sub p (VFloat o)) py_abs) as [d|e]; [|eauto].
  destruct (py_lt_float d 0.15) as [[|]|e]; [|eauto..].
  apply IH; lia.
Qed.

(** X17.  [probability] needs a counter for every probability: when the
    histogram has fewer counters than [prob_] has entries (as happens when
    an outcome occurs twice), the call never returns normally, whatever the
    counts, the sample size and the probabilities are; it raises (the
    division, a failed assertion, a [TypeError], or at the latest the
    [IndexError] of [output[i]]). *)
Theorem probability_needs_a_counter_per_probability :
  forall (str_other : pyval -> string) (dict_ : dict Z) (n : Z)
         (prob_ : list pyval) (w : world),
    (List.length dict_ < List.length prob_)%nat ->
    exists e w', probability str_other dict_ n prob_ w = (Thrown e, w').
Proof.
  intros str_other dict_ n prob_ w Hlt. unfold probability.
  destruct (ratios (dict_values dict_) n) as [output|e] eqn:E; [|eauto].
  apply ratios_length in E. unfold dict_values in E. rewrite length_map in E.
  apply probability_loop_overruns; lia.
Qed.

Lemma probability_needs_a_counter_per_probability_witness :
  (List.length [("1"%string, 4)] < List.length [VFloat 0.5; VFloat 0.5])%nat
  /\ exists e w',
      probability (fun _ => EmptyString) [("1"%string, 4)] 4
        [VFloat 0.5; VFloat 0.5] world0
      = (Thrown e, w').
Proof.
  assert (H : (List.length [("1"%string, 4)]
               < List.length [VFloat 0.5; VFloat 0.5])%nat) by (simpl; lia).
  split; [exact H|].
  exact (probability_needs_a_counter_per_probability (fun _ => EmptyString)
           [("1"%string, 4)] 4 [VFloat 0.5; VFloat 0.5] world0 H).
Defined.

(** ** The decorator *)

(** X18.  The wrapper that [debug] installs around a function that prints
    nothing only adds its line to standard output: the decorated function
    returns or raises what the function does and leaves the instance and
    the random source as the function does. *)
Theorem debug_only_adds_its_line :
  forall (A : Type) (prefix qualname : string) (func : M A) (w : world),
    silent func ->
    debug prefix qualname func w
    = (fst (func w),
       with_out (w_out w ++ [(prefix ++ qualname)%string]) (snd (func w))).
Proof.
  intros A prefix qualname func w Hs. unfold debug, bind, print.
  apply (Hs w (w_out w ++ [(prefix ++ qualname)%string])%list).
Qed.

Lemma debug_only_adds_its_line_witness :
  silent next_num
  /\ debug "trace: " "next_num" next_num world0
     = (fst (next_num world0),
        with_out (w_out world0 ++ [("trace: " ++ "next_num")%string])
                 (snd (next_num world0))).
Proof.
  split; [exact silent_next_num|].
  exact (debug_only_adds_its_line pyval "trace: " "next_num" next_num world0
           silent_next_num).
Defined.
